(** * HidInput: USB HID reports to Atari ST keyboard, mouse and joystick state

    A shallow embedding of [src/pico/HidInput.cpp].  The translator object
    becomes a record, each handler a function from the object and a snapshot
    of the USB host layer to the new object and the list of calls it made to
    its collaborators.  Integers are [Z]; the bit operations of the source are
    [Z.land], [Z.lor], [Z.lnot] and [Z.shiftl]; report buffers are lists of
    bytes read at the offsets of the C structs they are cast to, and a read
    past the end of a buffer finds a byte of which nothing is known. *)

From Stdlib Require Import ZArith Bool List Lia.
From stdpp Require Import base list gmap.
Import ListNotations.

Local Open Scope Z_scope.

(** ** Constants of the headers

    [tusb.h], the HID report parser and [st_key_lookup.h] are not part of the
    translation unit.  Their enumerators, bit masks, the parser's extraction
    function and the scan-code table are taken as a parameter of the
    development. *)

(** One field descriptor of a parsed report descriptor
    ([item->Attributes.Usage.Page], [item->Attributes.Usage.Usage],
    [item->ItemType], [item->Attributes.Logical]). *)
Record HID_ReportItem_t := {
  Usage_Page : Z;
  Usage_Usage : Z;
  ItemType : Z;
  Logical_Minimum : Z;
  Logical_Maximum : Z
}.

(** [info->ReportItems[0 .. TotalReportItems-1]]. *)
Definition HID_ReportInfo_t := list HID_ReportItem_t.

Class Headers := {
  (* HID_TYPE enumerators *)
  HID_KEYBOARD : Z;
  HID_MOUSE : Z;
  HID_GENERIC : Z;
  (* hid_keyboard_modifier_bm_t *)
  KEYBOARD_MODIFIER_LEFTCTRL : Z;
  KEYBOARD_MODIFIER_LEFTSHIFT : Z;
  KEYBOARD_MODIFIER_LEFTALT : Z;
  KEYBOARD_MODIFIER_RIGHTCTRL : Z;
  KEYBOARD_MODIFIER_RIGHTSHIFT : Z;
  KEYBOARD_MODIFIER_RIGHTALT : Z;
  (* hid_mouse_button_bm_t *)
  MOUSE_BUTTON_LEFT : Z;
  MOUSE_BUTTON_RIGHT : Z;
  (* report parser *)
  USAGE_PAGE_BUTTON : Z;
  USAGE_PAGE_GENERIC_DCTRL : Z;
  USAGE_X : Z;
  USAGE_Y : Z;
  HID_REPORT_ITEM_In : Z;
  (* USB_GetHIDReportItemInfo(js, item): [Some v] when the item is in the
     report [js], with [v] the [item->Value] the call stores *)
  USB_GetHIDReportItemInfo : list Z -> HID_ReportItem_t -> option Z;
  (* st_key_lookup.h: HID key code to ST scan code, as read into a char *)
  st_key_lookup_hid_gb : Z -> Z
}.

(** Mouse toggle key and the ST scan codes of the modifier keys. *)
Definition TOGGLE_MOUSE_MODE : Z := 70.
Definition ATARI_LSHIFT : Z := 42.
Definition ATARI_RSHIFT : Z := 54.
Definition ATARI_ALT : Z := 56.
Definition ATARI_CTRL : Z := 29.

(** ** Data *)

(** A snapshot of the USB host layer as one handler call sees it.
    [device] is the registry [std::map<int, uint8_t*>] in iteration order
    (ascending address), each address with the bytes of its report buffer. *)
Record usb_host := {
  device : list (Z * list Z);
  tuh_hid_get_type : Z -> Z;
  tuh_hid_is_mounted : Z -> bool;
  tuh_hid_is_busy : Z -> bool;
  tuh_hid_get_report_info : Z -> option HID_ReportInfo_t
}.

(** The members of [HidInput].  [HidInput.h] declares them; the motion
    members are taken as signed integers that hold an [int8_t], the masks as
    integers whose low byte is what the queries return. *)
Record HidInput := {
  key_states : list Z;
  mouse_state : Z;
  joystick_state : Z;
  val_x : Z;
  val_y : Z;
  last_x : Z;
  last_y : Z;
  mouse_en : bool
}.

(** Calls to the collaborators, in the order they are made. *)
Inductive event :=
  | tuh_hid_get_report (dev_addr : Z)
  | set_speed (x y : Z).

(** ** C helpers *)

(** A C condition: non-zero is true. *)
Definition truthy (z : Z) : bool := negb (z =? 0).

(** [c ? 1 : 0] and friends. *)
Definition cond (c : bool) (a b : Z) : Z := if c then a else b.

(** A comparison used as an integer argument. *)
Definition of_bool (b : bool) : Z := if b then 1 else 0.

(** What the memory holds past the end of an array.  The handlers cast a
    report buffer to a struct without looking at its size, so a field of a
    buffer shorter than the struct is read from the memory that follows the
    array; nothing is known of that memory, and the development holds for
    every instance of it. *)
Class Memory := {
  past_the_end : list Z -> nat -> Z
}.

(** [buf[off]] as [uint8_t]: the byte of the array at [off], or, past the end
    of the array, the byte found in the memory behind it. *)
Definition u8_at `{Memory} (buf : list Z) (off : nat) : Z :=
  match buf !! off with
  | Some b => b
  | None => past_the_end buf off mod 256
  end.

(** [buf[off]] as [int8_t]: the same byte, read as a signed one. *)
Definition i8_at `{Memory} (buf : list Z) (off : nat) : Z :=
  let b := u8_at buf off in if b <? 128 then b else b - 256.

(** [v[i]] on a [std::vector]; [None] is an access outside the vector. *)
Definition vec_get (v : list Z) (i : Z) : option Z :=
  if i <? 0 then None else v !! Z.to_nat i.

(** [v[i] = x].  The handlers write at indices below 128 only, inside the
    table of every constructed object. *)
Definition vec_set (v : list Z) (i : Z) (x : Z) : list Z := <[Z.to_nat i := x]> v.

(** [v.resize(n)]: keeps the first [n] elements, pads with zeros. *)
Definition resize (n : nat) (v : list Z) : list Z :=
  take n v ++ repeat 0 (n - length v)%nat.

(** [std::fill(v.begin(), v.end(), 0)]. *)
Definition fill0 (v : list Z) : list Z := map (fun _ => 0) v.

(** Field updates. *)
Definition set_key_states (ks : list Z) (h : HidInput) : HidInput :=
  {| key_states := ks; mouse_state := mouse_state h;
     joystick_state := joystick_state h;
     val_x := val_x h; val_y := val_y h;
     last_x := last_x h; last_y := last_y h; mouse_en := mouse_en h |}.

Definition set_mouse_state (m : Z) (h : HidInput) : HidInput :=
  {| key_states := key_states h; mouse_state := m;
     joystick_state := joystick_state h;
     val_x := val_x h; val_y := val_y h;
     last_x := last_x h; last_y := last_y h; mouse_en := mouse_en h |}.

Definition set_joystick_state (j : Z) (h : HidInput) : HidInput :=
  {| key_states := key_states h; mouse_state := mouse_state h;
     joystick_state := j;
     val_x := val_x h; val_y := val_y h;
     last_x := last_x h; last_y := last_y h; mouse_en := mouse_en h |}.

Definition set_val (x y : Z) (h : HidInput) : HidInput :=
  {| key_states := key_states h; mouse_state := mouse_state h;
     joystick_state := joystick_state h;
     val_x := x; val_y := y;
     last_x := last_x h; last_y := last_y h; mouse_en := mouse_en h |}.

Definition set_last (x y : Z) (h : HidInput) : HidInput :=
  {| key_states := key_states h; mouse_state := mouse_state h;
     joystick_state := joystick_state h;
     val_x := val_x h; val_y := val_y h;
     last_x := x; last_y := y; mouse_en := mouse_en h |}.

(** ** The translator *)

Section Translator.

Context `{Headers} {Mem : Memory}.

(** [HidInput::HidInput()], run on the members as the class declares them. *)
Definition HidInput_ctor (h0 : HidInput) : HidInput :=
  set_key_states (fill0 (resize 128 (key_states h0))) h0.

(** *** Keyboard *)

(** The guard [if (tuh_hid_get_type(it.first != HID_X)) continue;]: the
    comparison is the argument of the call, the returned type the condition. *)
Definition skips (usb : usb_host) (addr : Z) (tp : Z) : bool :=
  truthy (tuh_hid_get_type usb (of_bool (negb (addr =? tp)))).

Definition ready (usb : usb_host) (addr : Z) : bool :=
  tuh_hid_is_mounted usb addr && negb (tuh_hid_is_busy usb addr).

(** [hid_keyboard_report_t]: modifier, reserved, keycode[6]. *)
Definition kb_modifier (kb : list Z) : Z := u8_at kb 0.
Definition kb_keycode (kb : list Z) (i : nat) : Z := u8_at kb (2 + i).

(** The ST key stored in [st_keys[i]]. *)
Definition st_key_of (kb : list Z) (i : nat) : Z :=
  let c := kb_keycode kb i in
  if (0 <? c) && (c <? 128) then st_key_lookup_hid_gb c else 0.

(** The translated [st_keys[6]]. *)
Definition st_keys (kb : list Z) : list Z := map (st_key_of kb) (seq 0 6).

(** The inner loop over [j]: is ST key [i] among the translated keys. *)
Definition key_is_down (keys : list Z) (i : nat) : bool :=
  existsb (fun k => k =? Z.of_nat i) keys.

(** The loop [for (i = 1; i < key_states.size(); ++i)]. *)
Definition update_keys (keys : list Z) (ks : list Z) : list Z :=
  fold_left (fun acc i => <[i := cond (key_is_down keys i) 1 0]> acc)
            (seq 1 (length ks - 1)) ks.

(** The four modifier slots, written after the loop. *)
Definition update_modifiers (modifier : Z) (ks : list Z) : list Z :=
  let ks := vec_set ks ATARI_LSHIFT
              (cond (truthy (Z.land modifier KEYBOARD_MODIFIER_LEFTSHIFT)) 1 0) in
  let ks := vec_set ks ATARI_RSHIFT
              (cond (truthy (Z.land modifier KEYBOARD_MODIFIER_RIGHTSHIFT)) 1 0) in
  let ks := vec_set ks ATARI_CTRL
              (cond (truthy (Z.land modifier KEYBOARD_MODIFIER_LEFTCTRL) ||
                     truthy (Z.land modifier KEYBOARD_MODIFIER_RIGHTCTRL)) 1 0) in
  vec_set ks ATARI_ALT
          (cond (truthy (Z.land modifier KEYBOARD_MODIFIER_LEFTALT) ||
                 truthy (Z.land modifier KEYBOARD_MODIFIER_RIGHTALT)) 1 0).

(** The body of the keyboard loop for one report. *)
Definition keyboard_report (kb : list Z) (h : HidInput) : HidInput :=
  set_key_states
    (update_modifiers (kb_modifier kb) (update_keys (st_keys kb) (key_states h))) h.

Fixpoint keyboard_loop (usb : usb_host) (devs : list (Z * list Z)) (h : HidInput)
  : HidInput * list event :=
  match devs with
  | [] => (h, [])
  | (addr, buf) :: rest =>
      if skips usb addr HID_KEYBOARD then keyboard_loop usb rest h
      else if ready usb addr then
        let (h', t) := keyboard_loop usb rest (keyboard_report buf h) in
        (h', tuh_hid_get_report addr :: t)
      else keyboard_loop usb rest h
  end.

(** [HidInput::handle_keyboard]. *)
Definition handle_keyboard (usb : usb_host) (h : HidInput) : HidInput * list event :=
  keyboard_loop usb (device usb) h.

(** *** Mouse *)

(** [hid_mouse_report_t]: buttons, x, y, wheel, pan. *)
Definition mouse_buttons_of (m : list Z) : Z := u8_at m 0.
Definition mouse_x (m : list Z) : Z := i8_at m 1.
Definition mouse_y (m : list Z) : Z := i8_at m 2.

(** The wrap-around guess on one axis. *)
Definition glitch (v last : Z) : Z :=
  if (v <? 0) && (45 <? last) then 127
  else if (0 <? v) && (last <? -45) then -127
  else v.

(** The body of the mouse loop for one report. *)
Definition mouse_report (m : list Z) (h : HidInput) : HidInput :=
  let h := set_mouse_state
             (Z.lor (Z.land (mouse_state h) 0xfd)
                    (cond (truthy (Z.land (mouse_buttons_of m) MOUSE_BUTTON_LEFT)) 2 0)) h in
  let h := set_mouse_state
             (Z.lor (Z.land (mouse_state h) 0xfe)
                    (cond (truthy (Z.land (mouse_buttons_of m) MOUSE_BUTTON_RIGHT)) 1 0)) h in
  let h := set_val (mouse_x m) (mouse_y m) h in
  let h := set_val (glitch (val_x h) (last_x h)) (glitch (val_y h) (last_y h)) h in
  set_last (val_x h) (val_y h) h.

Fixpoint mouse_loop (usb : usb_host) (devs : list (Z * list Z)) (h : HidInput)
  : HidInput * list event :=
  match devs with
  | [] => (h, [])
  | (addr, buf) :: rest =>
      if skips usb addr HID_MOUSE then mouse_loop usb rest h
      else if ready usb addr then
        let (h', t) := mouse_loop usb rest (mouse_report buf h) in
        (h', tuh_hid_get_report addr :: t)
      else mouse_loop usb rest h
  end.

(** [HidInput::handle_mouse]. *)
Definition handle_mouse (usb : usb_host) (cpu_cycles : Z) (h : HidInput)
  : HidInput * list event :=
  let (h, t) := mouse_loop usb (device usb) h in
  if truthy cpu_cycles then
    (set_val 0 0 h, t ++ [set_speed (val_x h) (val_y h)])
  else (h, t).

(** *** Joystick *)

(** The body of the loop over the report items. [joystick] is the port
    counter after its decrement. *)
Definition joystick_item (joystick : Z) (js : list Z) (item : HID_ReportItem_t)
    (h : HidInput) : HidInput :=
  match USB_GetHIDReportItemInfo js item with
  | None => h
  | Some value =>
      if (Usage_Page item =? USAGE_PAGE_BUTTON) &&
         (ItemType item =? HID_REPORT_ITEM_In) then
        if joystick =? 0 then
          set_mouse_state
            (Z.lor (Z.land (mouse_state h) 0xfd) (cond (truthy value) 2 0)) h
        else
          set_mouse_state
            (Z.lor (Z.land (mouse_state h) 0xfe) (cond (truthy value) 1 0)) h
      else if (Usage_Page item =? USAGE_PAGE_GENERIC_DCTRL) &&
              ((Usage_Usage item =? USAGE_X) || (Usage_Usage item =? USAGE_Y)) &&
              (ItemType item =? HID_REPORT_ITEM_In) then
        let bit := if Usage_Usage item =? USAGE_X then 2 else 0 in
        let bit := if joystick =? 1 then bit + 4 else bit in
        let h := set_joystick_state
                   (Z.land (joystick_state h) (Z.lnot (Z.shiftl 0x3 bit))) h in
        if value <? 0x80 then
          set_joystick_state (Z.lor (joystick_state h) (Z.shiftl 1 bit)) h
        else if 0x80 <? value then
          set_joystick_state (Z.lor (joystick_state h) (Z.shiftl 1 (bit + 1))) h
        else h
      else h
  end.

(** One ready device: all its items when it has a parsed descriptor. *)
Definition joystick_report (usb : usb_host) (joystick : Z) (addr : Z) (js : list Z)
    (h : HidInput) : HidInput :=
  match tuh_hid_get_report_info usb addr with
  | Some info => fold_left (fun h item => joystick_item joystick js item h) info h
  | None => h
  end.

Fixpoint joystick_loop (usb : usb_host) (devs : list (Z * list Z)) (joystick : Z)
    (h : HidInput) : HidInput * list event :=
  match devs with
  | [] => (h, [])
  | (addr, buf) :: rest =>
      if skips usb addr HID_GENERIC then joystick_loop usb rest joystick h
      else
        let joystick := joystick - 1 in
        if joystick <? 0 then (h, [])
        else if ready usb addr then
          let (h', t) :=
            joystick_loop usb rest joystick (joystick_report usb joystick addr buf h) in
          (h', tuh_hid_get_report addr :: t)
        else joystick_loop usb rest joystick h
  end.

(** [HidInput::handle_joystick]. *)
Definition handle_joystick (usb : usb_host) (h : HidInput) : HidInput * list event :=
  joystick_loop usb (device usb) 2 h.

(** *** Reset and queries *)

(** [HidInput::reset]. *)
Definition reset (h : HidInput) : HidInput :=
  set_key_states (fill0 (key_states h)) h.

(** [HidInput::keydown]; [code] is an [unsigned char]. [None] stands for an
    access outside [key_states]. *)
Definition keydown (h : HidInput) (code : Z) : option Z :=
  if code <? 128 then vec_get (key_states h) code else Some 0.

(** [HidInput::mouse_buttons], [HidInput::joystick] (an [unsigned char]) and
    [HidInput::mouse_enabled]. *)
Definition mouse_buttons (h : HidInput) : Z := mouse_state h.
Definition joystick (h : HidInput) : Z := joystick_state h mod 256.
Definition mouse_enabled (h : HidInput) : bool := mouse_en h.

(** *** Runs *)

Inductive op :=
  | op_keyboard (usb : usb_host)
  | op_mouse (usb : usb_host) (cpu_cycles : Z)
  | op_joystick (usb : usb_host)
  | op_reset.

Definition step (o : op) (h : HidInput) : HidInput * list event :=
  match o with
  | op_keyboard usb => handle_keyboard usb h
  | op_mouse usb c => handle_mouse usb c h
  | op_joystick usb => handle_joystick usb h
  | op_reset => (reset h, [])
  end.

(** The objects a program can hold: the constructed one and what any
    sequence of handler calls and resets makes of it. *)
Inductive reachable : HidInput -> Prop :=
  | reachable_ctor h0 : reachable (HidInput_ctor h0)
  | reachable_step o h : reachable h -> reachable (fst (step o h)).

(** *** What a call gets to see *)

(** The devices whose report a keyboard or mouse call decodes: the guard lets
    them through and they are mounted and not busy. *)
Definition decoded (usb : usb_host) (tp : Z) : list (Z * list Z) :=
  List.filter (fun d => negb (skips usb (fst d) tp) && ready usb (fst d)) (device usb).

(** The devices the joystick call counts: the guard lets them through. *)
Definition candidates (usb : usb_host) : list (Z * list Z) :=
  List.filter (fun d => negb (skips usb (fst d) HID_GENERIC)) (device usb).

(** The key table of every constructed object: 128 slots, slot 0 clear. *)
Definition table_ok (h : HidInput) : Prop :=
  length (key_states h) = 128%nat /\ key_states h !! 0%nat = Some 0.

End Translator.

(** ** The axis rule in the words of the specification

    The midpoint of the item's logical range decides the direction. *)

Definition spec_logical_midpoint (item : HID_ReportItem_t) : Z :=
  (Logical_Minimum item + Logical_Maximum item + 1) / 2.

Definition spec_axis_pair (item : HID_ReportItem_t) (value : Z) : bool * bool :=
  (value <? spec_logical_midpoint item, spec_logical_midpoint item <? value).

(** ** Sample instances

    Values in the style of TinyUSB and of the report parser, a fragment of a
    scan-code table, and a few host snapshots. *)

Module Sample.

Definition headers : Headers := {|
  HID_KEYBOARD := 1;
  HID_MOUSE := 2;
  HID_GENERIC := 3;
  KEYBOARD_MODIFIER_LEFTCTRL := 1;
  KEYBOARD_MODIFIER_LEFTSHIFT := 2;
  KEYBOARD_MODIFIER_LEFTALT := 4;
  KEYBOARD_MODIFIER_RIGHTCTRL := 16;
  KEYBOARD_MODIFIER_RIGHTSHIFT := 32;
  KEYBOARD_MODIFIER_RIGHTALT := 64;
  MOUSE_BUTTON_LEFT := 1;
  MOUSE_BUTTON_RIGHT := 2;
  USAGE_PAGE_BUTTON := 0x09;
  USAGE_PAGE_GENERIC_DCTRL := 0x01;
  USAGE_X := 0x30;
  USAGE_Y := 0x31;
  HID_REPORT_ITEM_In := 0;
  (* axis X in bytes 0-1, axis Y in bytes 2-3, little endian *)
  USB_GetHIDReportItemInfo := fun js item =>
    let off := (2 * Z.to_nat (Usage_Usage item - 0x30))%nat in
    match js !! off, js !! S off with
    | Some lo, Some hi => Some (lo + 256 * hi)
    | _, _ => None
    end;
  (* HID 'a' and 'b' to the ST keys A and B *)
  st_key_lookup_hid_gb := fun c =>
    if c =? 4 then 30 else if c =? 5 then 48 else 0
|}.

(** A memory that holds zeros behind every array. *)
Definition memory : Memory := {| past_the_end := fun _ _ => 0 |}.

(** An object before its constructor runs. *)
Definition raw : HidInput := {|
  key_states := []; mouse_state := 0; joystick_state := 0;
  val_x := 0; val_y := 0; last_x := 0; last_y := 0; mouse_en := true
|}.

Definition fresh : HidInput := HidInput_ctor raw.

(** A constructed object whose previous mouse sample was (100, -90). *)
Definition moving : HidInput := set_last 100 (-90) fresh.

(** A host in which the guard lets every device through (no HID device at
    addresses 0 and 1) and every device is mounted and idle. *)
Definition open_host (devs : list (Z * list Z))
    (info : Z -> option HID_ReportInfo_t) : usb_host := {|
  device := devs;
  tuh_hid_get_type := fun _ => 0;
  tuh_hid_is_mounted := fun _ => true;
  tuh_hid_is_busy := fun _ => false;
  tuh_hid_get_report_info := info
|}.

Definition no_info : Z -> option HID_ReportInfo_t := fun _ => None.

(** hid_mouse_report_t buffers: (3,-2), (4,1), (-5,3) and (100,-90). *)
Definition mouse_3_m2 : list Z := [0; 3; 254; 0; 0].
Definition mouse_4_1 : list Z := [0; 4; 1; 0; 0].
Definition mouse_m5_3_left : list Z := [1; 251; 3; 0; 0].
Definition mouse_100_m90 : list Z := [0; 100; 166; 0; 0].

(** hid_keyboard_report_t buffers: 'a' held, and nothing held. *)
Definition kb_a : list Z := [0; 0; 4; 0; 0; 0; 0; 0].
Definition kb_none : list Z := [0; 0; 0; 0; 0; 0; 0; 0].

(** An 8-bit and a 10-bit X axis. *)
Definition axis_x8 : HID_ReportItem_t := {|
  Usage_Page := 0x01; Usage_Usage := 0x30; ItemType := 0;
  Logical_Minimum := 0; Logical_Maximum := 255 |}.
Definition axis_x10 : HID_ReportItem_t := {|
  Usage_Page := 0x01; Usage_Usage := 0x30; ItemType := 0;
  Logical_Minimum := 0; Logical_Maximum := 1023 |}.

(** A keyboard at address 1 and a pad at address 2 that reports X = 0. *)
Definition kb_and_pad : usb_host := {|
  device := [(1, kb_a); (2, [0; 0; 0; 0])];
  tuh_hid_get_type := fun a => if a =? 1 then 1 else if a =? 2 then 3 else 0;
  tuh_hid_is_mounted := fun _ => true;
  tuh_hid_is_busy := fun _ => false;
  tuh_hid_get_report_info := fun a => if a =? 2 then Some [axis_x8] else None
|}.

(** A hub at address 1, a keyboard at address 4, a pad at address 5. *)
Definition hub_kb_pad : usb_host := {|
  device := [(4, kb_a); (5, [0; 0; 0; 0])];
  tuh_hid_get_type := fun a => if a =? 4 then 1 else if a =? 5 then 3 else 0;
  tuh_hid_is_mounted := fun _ => true;
  tuh_hid_is_busy := fun _ => false;
  tuh_hid_get_report_info := fun _ => Some [axis_x8]
|}.

(** Three pads behind a hub, the first one busy. *)
Definition three_pads : usb_host := {|
  device := [(4, [0; 0; 0; 0]); (5, [255; 0; 0; 0]); (6, [0; 0; 0; 0])];
  tuh_hid_get_type := fun a => if a <? 4 then 0 else 3;
  tuh_hid_is_mounted := fun _ => true;
  tuh_hid_is_busy := fun a => a =? 4;
  tuh_hid_get_report_info := fun _ => Some [axis_x8]
|}.

End Sample.

(** ** Runs and the C interface *)

Section Interface.

Context `{Headers} {Mem : Memory}.

(** A sequence of handler calls and resets, with what it asked of the
    collaborators. *)
Fixpoint run (ops : list op) (h : HidInput) : HidInput * list event :=
  match ops with
  | [] => (h, [])
  | o :: ops =>
      let (h1, t1) := step o h in
      let (h2, t2) := run ops h1 in
      (h2, t1 ++ t2)
  end.

(** [st_keydown], [st_mouse_buttons], [st_joystick] and [st_mouse_enabled],
    on the one object [HidInput::instance()] returns. *)
Definition st_keydown (h : HidInput) (code : Z) : option Z := keydown h code.
Definition st_mouse_buttons (h : HidInput) : Z := mouse_buttons h.
Definition st_joystick (h : HidInput) : Z := joystick h.
Definition st_mouse_enabled (h : HidInput) : Z := cond (mouse_enabled h) 1 0.

End Interface.

(** A masked update of the two masks: keep the bits of [km] and [kj], then
    set the bits of [sm] and [sj]. *)
Definition masked_update (km sm kj sj : Z) (h : HidInput) : HidInput :=
  set_joystick_state (Z.lor (Z.land (joystick_state h) kj) sj)
    (set_mouse_state (Z.lor (Z.land (mouse_state h) km) sm) h).

(** The six key codes [kb->keycode[0..5]] of a keyboard report. *)
Definition kb_codes `{Memory} (kb : list Z) : list Z :=
  map (kb_keycode kb) (seq 0 6).

(** The same host with other answers from [tuh_hid_get_type]. *)
Definition retyped (types : Z -> Z) (usb : usb_host) : usb_host := {|
  device := device usb;
  tuh_hid_get_type := types;
  tuh_hid_is_mounted := tuh_hid_is_mounted usb;
  tuh_hid_is_busy := tuh_hid_is_busy usb;
  tuh_hid_get_report_info := tuh_hid_get_report_info usb
|}.

(** ** The device registry and the mount callbacks

    [device] is a [std::map<int, uint8_t*>]: a finite map from the device
    address to the array [new uint8_t[n]] returned for it.  Arrays are named
    by a number; [reg_heap] holds the arrays that are allocated and not yet
    deleted, each with its size. *)

Record registry := {
  reg_device : gmap Z nat;
  reg_heap : gmap nat nat
}.

Inductive hid_kind := kind_keyboard | kind_mouse | kind_joystick.

(** What a callback prints and asks of the host layer. *)
Inductive cb_event :=
  | printed (k : hid_kind) (mounted : bool) (dev_addr : Z)
  | report_requested (dev_addr : Z) (buf : nat).

Section Callbacks.

Context `{Headers} {Mem : Memory}.

(** [sizeof(hid_keyboard_report_t)], [sizeof(hid_mouse_report_t)] and
    [tuh_hid_get_report_size]. *)
Variable sizeof_hid_keyboard_report_t : nat.
Variable sizeof_hid_mouse_report_t : nat.
Variable tuh_hid_get_report_size : Z -> nat.

(** The chain [if (tp == HID_KEYBOARD) ... else if (tp == HID_MOUSE) ...
    else if (tp == HID_GENERIC) ...] of both callbacks. *)
Definition classify (tp : Z) : option hid_kind :=
  if tp =? HID_KEYBOARD then Some kind_keyboard
  else if tp =? HID_MOUSE then Some kind_mouse
  else if tp =? HID_GENERIC then Some kind_joystick
  else None.

Definition report_bytes (k : hid_kind) (dev_addr : Z) : nat :=
  match k with
  | kind_keyboard => sizeof_hid_keyboard_report_t
  | kind_mouse => sizeof_hid_mouse_report_t
  | kind_joystick => tuh_hid_get_report_size dev_addr
  end.

(** [tuh_hid_mounted_cb]; [p] is the array [new] returns. *)
Definition tuh_hid_mounted_cb (usb : usb_host) (p : nat) (dev_addr : Z)
    (r : registry) : registry * list cb_event :=
  match classify (tuh_hid_get_type usb dev_addr) with
  | Some k =>
      ({| reg_device := <[dev_addr := p]> (reg_device r);
          reg_heap := <[p := report_bytes k dev_addr]> (reg_heap r) |},
       [printed k true dev_addr; report_requested dev_addr p])
  | None => (r, [])
  end.

(** [tuh_hid_unmounted_cb]; [None] is a [delete[]] of an array that is not
    allocated. *)
Definition tuh_hid_unmounted_cb (usb : usb_host) (dev_addr : Z) (r : registry)
  : option (registry * list cb_event) :=
  let t := match classify (tuh_hid_get_type usb dev_addr) with
           | Some k => [printed k false dev_addr]
           | None => []
           end in
  match reg_device r !! dev_addr with
  | Some p =>
      match reg_heap r !! p with
      | Some _ =>
          Some ({| reg_device := delete dev_addr (reg_device r);
                   reg_heap := delete p (reg_heap r) |}, t)
      | None => None
      end
  | None => Some (r, t)
  end.

(** The registries the callbacks can build from the empty one, [new]
    returning an array that is not allocated. *)
Inductive registry_reachable : registry -> Prop :=
  | registry_start :
      registry_reachable {| reg_device := ∅; reg_heap := ∅ |}
  | registry_mount usb p dev_addr r :
      registry_reachable r ->
      reg_heap r !! p = None ->
      registry_reachable (fst (tuh_hid_mounted_cb usb p dev_addr r))
  | registry_unmount usb dev_addr r r' t :
      registry_reachable r ->
      tuh_hid_unmounted_cb usb dev_addr r = Some (r', t) ->
      registry_reachable r'.

(** Every registered array is allocated, and no array is registered twice. *)
Definition registry_ok (r : registry) : Prop :=
  (forall a p, reg_device r !! a = Some p -> is_Some (reg_heap r !! p)) /\
  (forall a1 a2 p,
     reg_device r !! a1 = Some p -> reg_device r !! a2 = Some p -> a1 = a2).

(** Every allocated array is registered: nothing has leaked. *)
Definition registry_tight (r : registry) : Prop :=
  forall p, is_Some (reg_heap r !! p) -> exists a, reg_device r !! a = Some p.

End Callbacks.

(** More sample instances. *)

Module Sample2.

(** A host in which every device is busy. *)
Definition busy_host (devs : list (Z * list Z)) : usb_host := {|
  device := devs;
  tuh_hid_get_type := fun _ => 0;
  tuh_hid_is_mounted := fun _ => true;
  tuh_hid_is_busy := fun _ => true;
  tuh_hid_get_report_info := fun _ => None
|}.

(** hid_keyboard_report_t: left shift and right control held with 'a', 'b',
    an unmapped code and a code above 127. *)
Definition kb_chord : list Z := [18; 0; 4; 5; 6; 200; 4; 0].

(** The same keys in other slots, one of them twice more. *)
Definition kb_chord_shuffled : list Z := [18; 0; 0; 200; 6; 5; 4; 5].

(** A button item, read from bytes 4-5 of the report, and a Y axis. *)
Definition button_1 : HID_ReportItem_t := {|
  Usage_Page := 0x09; Usage_Usage := 0x32; ItemType := 0;
  Logical_Minimum := 0; Logical_Maximum := 1 |}.
Definition axis_y8 : HID_ReportItem_t := {|
  Usage_Page := 0x01; Usage_Usage := 0x31; ItemType := 0;
  Logical_Minimum := 0; Logical_Maximum := 255 |}.

(** Four pads behind a hub, all ready. *)
Definition four_pads : usb_host := {|
  device := [(4, [0; 0; 255; 0]); (5, [255; 0; 0; 0]); (6, [0; 0; 0; 0]);
             (7, [0; 0; 0; 0])];
  tuh_hid_get_type := fun a => if a <? 4 then 0 else 3;
  tuh_hid_is_mounted := fun _ => true;
  tuh_hid_is_busy := fun _ => false;
  tuh_hid_get_report_info := fun _ => Some [Sample.axis_x8; axis_y8]
|}.

(** A host that types address 1 as a keyboard and address 3 as a pad. *)
Definition typed_host : usb_host := {|
  device := [];
  tuh_hid_get_type := fun a => if a =? 1 then 1 else if a =? 3 then 3 else 0;
  tuh_hid_is_mounted := fun _ => true;
  tuh_hid_is_busy := fun _ => false;
  tuh_hid_get_report_info := fun _ => None
|}.

Definition empty_registry : registry := {| reg_device := ∅; reg_heap := ∅ |}.

End Sample2.

(** ** Facts about the helpers *)

Section Facts.

Context `{Headers} {Mem : Memory}.

Lemma length_fill0 (v : list Z) : length (fill0 v) = length v.
Proof. unfold fill0. induction v; simpl; congruence. Qed.

Lemma lookup_fill0 (v : list Z) (i : nat) :
  (i < length v)%nat -> fill0 v !! i = Some 0.
Proof.
  unfold fill0. revert i. induction v as [|x v IH]; intros i Hi; simpl in *.
  - lia.
  - destruct i as [|i]; [reflexivity|]. apply IH. lia.
Qed.

Lemma length_resize (n : nat) (v : list Z) : length (resize n v) = n.
Proof.
  unfold resize. rewrite length_app, length_take, repeat_length. lia.
Qed.

Lemma length_vec_set (v : list Z) (i x : Z) : length (vec_set v i x) = length v.
Proof. apply length_insert. Qed.

(** A run of indexed writes: inside the run and inside the vector the slot
    holds what was written, elsewhere the old content. *)
Lemma lookup_fold_insert (f : nat -> Z) (n : nat) :
  forall (start : nat) (ks : list Z) (i : nat),
    fold_left (fun acc j => <[j := f j]> acc) (seq start n) ks !! i =
    if decide ((start <= i < start + n)%nat /\ (i < length ks)%nat)
    then Some (f i) else ks !! i.
Proof.
  induction n as [|n IH]; intros start ks i; simpl.
  - case_decide; [lia | reflexivity].
  - rewrite IH, length_insert.
    destruct (decide (i = start)) as [->|Hne].
    + case_decide; [lia|].
      case_decide.
      * apply list_lookup_insert_eq. lia.
      * rewrite list_insert_ge by lia. reflexivity.
    + rewrite list_lookup_insert_ne by congruence.
      repeat case_decide; try reflexivity; lia.
Qed.

Lemma length_fold_insert (f : nat -> Z) (l : list nat) :
  forall ks : list Z,
    length (fold_left (fun acc j => <[j := f j]> acc) l ks) = length ks.
Proof.
  induction l as [|j l IH]; intros ks; simpl; [reflexivity|].
  rewrite IH. apply length_insert.
Qed.

Lemma length_update_keys (keys ks : list Z) :
  length (update_keys keys ks) = length ks.
Proof. apply length_fold_insert. Qed.

Lemma lookup_update_keys (keys ks : list Z) (i : nat) :
  (1 <= i < length ks)%nat ->
  update_keys keys ks !! i = Some (cond (key_is_down keys i) 1 0).
Proof.
  intros Hi. unfold update_keys. rewrite lookup_fold_insert.
  case_decide; [reflexivity | lia].
Qed.

Lemma lookup_update_keys_0 (keys ks : list Z) :
  update_keys keys ks !! 0%nat = ks !! 0%nat.
Proof.
  unfold update_keys. rewrite lookup_fold_insert.
  case_decide; [lia | reflexivity].
Qed.

Lemma length_update_modifiers (m : Z) (ks : list Z) :
  length (update_modifiers m ks) = length ks.
Proof. unfold update_modifiers. rewrite !length_vec_set. reflexivity. Qed.

(** Outside the four modifier slots the modifier pass changes nothing. *)
Lemma lookup_update_modifiers_other (m : Z) (ks : list Z) (i : nat) :
  i <> 42%nat -> i <> 54%nat -> i <> 29%nat -> i <> 56%nat ->
  update_modifiers m ks !! i = ks !! i.
Proof.
  intros H1 H2 H3 H4. unfold update_modifiers, vec_set.
  rewrite !list_lookup_insert_ne; [reflexivity | | | |];
    unfold ATARI_LSHIFT, ATARI_RSHIFT, ATARI_CTRL, ATARI_ALT; lia.
Qed.

(** With no modifier bit set the four modifier slots are cleared. *)
Lemma lookup_update_modifiers_none (ks : list Z) (i : nat) :
  (i < length ks)%nat ->
  i = 42%nat \/ i = 54%nat \/ i = 29%nat \/ i = 56%nat ->
  update_modifiers 0 ks !! i = Some 0.
Proof.
  intros Hi Hm. unfold update_modifiers, vec_set. rewrite !Z.land_0_l. simpl.
  unfold ATARI_LSHIFT, ATARI_RSHIFT, ATARI_CTRL, ATARI_ALT.
  destruct Hm as [-> | [-> | [-> | ->]]];
    repeat first
      [ rewrite list_lookup_insert_eq by (rewrite ?length_insert; lia); reflexivity
      | rewrite list_lookup_insert_ne by lia ].
Qed.

End Facts.

(** ** Facts about the handlers *)

Section Handlers.

Context `{Headers} {Mem : Memory}.

(** A keyboard call is the fold of [keyboard_report] over what it decodes. *)
Lemma handle_keyboard_decoded (usb : usb_host) (h : HidInput) :
  handle_keyboard usb h =
  (fold_left (fun h d => keyboard_report (snd d) h) (decoded usb HID_KEYBOARD) h,
   map (fun d => tuh_hid_get_report (fst d)) (decoded usb HID_KEYBOARD)).
Proof.
  unfold handle_keyboard, decoded. revert h.
  induction (device usb) as [|[addr buf] devs IH]; intros h; simpl; [reflexivity|].
  destruct (skips usb addr HID_KEYBOARD); simpl; [apply IH|].
  destruct (ready usb addr); simpl; rewrite IH; reflexivity.
Qed.

Lemma mouse_loop_decoded (usb : usb_host) (h : HidInput) :
  mouse_loop usb (device usb) h =
  (fold_left (fun h d => mouse_report (snd d) h) (decoded usb HID_MOUSE) h,
   map (fun d => tuh_hid_get_report (fst d)) (decoded usb HID_MOUSE)).
Proof.
  unfold decoded. revert h.
  induction (device usb) as [|[addr buf] devs IH]; intros h; simpl; [reflexivity|].
  destruct (skips usb addr HID_MOUSE); simpl; [apply IH|].
  destruct (ready usb addr); simpl; rewrite IH; reflexivity.
Qed.

(** The joystick loop only ever looks at the candidates. *)
Lemma joystick_loop_candidates (usb : usb_host) (devs : list (Z * list Z)) :
  forall (j : Z) (h : HidInput),
    joystick_loop usb devs j h =
    joystick_loop usb
      (List.filter (fun d => negb (skips usb (fst d) HID_GENERIC)) devs) j h.
Proof.
  induction devs as [|[addr buf] devs IH]; intros j h; simpl; [reflexivity|].
  destruct (skips usb addr HID_GENERIC) eqn:E; simpl; [apply IH|].
  rewrite E. destruct (j - 1 <? 0); [reflexivity|].
  destruct (ready usb addr); rewrite IH; reflexivity.
Qed.

(** What every step of a fold keeps, the fold keeps. *)
Lemma fold_left_keeps {A B : Type} (P : A -> Prop) (f : A -> B -> A) (l : list B) :
  (forall a b, P a -> P (f a b)) -> forall a, P a -> P (fold_left f l a).
Proof.
  intros Hf. induction l as [|b l IH]; intros a Ha; simpl; [exact Ha|].
  apply IH, Hf, Ha.
Qed.

Lemma mouse_loop_keeps (P : HidInput -> Prop) (usb : usb_host) (h : HidInput) :
  (forall m h, P h -> P (mouse_report m h)) ->
  P h -> P (fst (mouse_loop usb (device usb) h)).
Proof.
  intros Hf Hh. rewrite mouse_loop_decoded. simpl.
  apply fold_left_keeps; [|exact Hh]. intros a b. apply Hf.
Qed.

Lemma joystick_loop_keeps (P : HidInput -> Prop) (usb : usb_host) :
  (forall j js item h, P h -> P (joystick_item j js item h)) ->
  forall devs j h, P h -> P (fst (joystick_loop usb devs j h)).
Proof.
  intros Hf. induction devs as [|[addr buf] devs IH]; intros j h Hh; simpl;
    [exact Hh|].
  destruct (skips usb addr HID_GENERIC); [apply IH, Hh|].
  destruct (j - 1 <? 0); [exact Hh|].
  destruct (ready usb addr); [|apply IH, Hh].
  destruct (joystick_loop usb devs (j - 1) (joystick_report usb (j - 1) addr buf h))
    as [h' t] eqn:E.
  change h' with (fst (h', t)). rewrite <- E. apply IH.
  unfold joystick_report. destruct (tuh_hid_get_report_info usb addr); [|exact Hh].
  apply fold_left_keeps; [|exact Hh]. intros a b. apply Hf.
Qed.

(** The mouse and joystick code never writes the key table. *)
Lemma mouse_report_key_states (m : list Z) (h : HidInput) :
  key_states (mouse_report m h) = key_states h.
Proof. reflexivity. Qed.

Lemma joystick_item_key_states (j : Z) (js : list Z) (item : HID_ReportItem_t)
    (h : HidInput) :
  key_states (joystick_item j js item h) = key_states h.
Proof.
  unfold joystick_item.
  repeat match goal with
         | |- context [match ?x with _ => _ end] => destruct x
         end; reflexivity.
Qed.

Lemma handle_mouse_key_states (usb : usb_host) (c : Z) (h : HidInput) :
  key_states (fst (handle_mouse usb c h)) = key_states h.
Proof.
  unfold handle_mouse.
  pose proof (mouse_loop_keeps (fun h' => key_states h' = key_states h) usb h) as K.
  destruct (mouse_loop usb (device usb) h) as [h' t]. simpl in K.
  destruct (truthy c); simpl; apply K; auto.
Qed.

Lemma handle_joystick_key_states (usb : usb_host) (h : HidInput) :
  key_states (fst (handle_joystick usb h)) = key_states h.
Proof.
  unfold handle_joystick.
  apply (joystick_loop_keeps (fun h' => key_states h' = key_states h)); [|reflexivity].
  intros j js item h' Hh'. rewrite joystick_item_key_states. exact Hh'.
Qed.

(** The keyboard code keeps the table's size and leaves slot 0 alone. *)
Lemma keyboard_report_table_ok (kb : list Z) (h : HidInput) :
  table_ok h -> table_ok (keyboard_report kb h).
Proof.
  intros [Hlen H0]. unfold table_ok, keyboard_report. simpl. split.
  - rewrite length_update_modifiers, length_update_keys. exact Hlen.
  - rewrite lookup_update_modifiers_other by lia.
    rewrite lookup_update_keys_0. exact H0.
Qed.

Lemma handle_keyboard_table_ok (usb : usb_host) (h : HidInput) :
  table_ok h -> table_ok (fst (handle_keyboard usb h)).
Proof.
  intros Hh. rewrite handle_keyboard_decoded. simpl.
  apply fold_left_keeps; [|exact Hh]. intros a b. apply keyboard_report_table_ok.
Qed.

Lemma HidInput_ctor_table_ok (h0 : HidInput) : table_ok (HidInput_ctor h0).
Proof.
  unfold table_ok, HidInput_ctor. simpl. split.
  - rewrite length_fill0. apply length_resize.
  - apply lookup_fill0. rewrite length_resize. lia.
Qed.

Lemma reset_table_ok (h : HidInput) : table_ok h -> table_ok (reset h).
Proof.
  intros [Hlen _]. unfold table_ok, reset. simpl. split.
  - rewrite length_fill0. exact Hlen.
  - apply lookup_fill0. lia.
Qed.

(** Every object a program can hold has a well-formed key table. *)
Lemma reachable_table_ok (h : HidInput) : reachable h -> table_ok h.
Proof.
  induction 1 as [h0 | o h Hr IH].
  - apply HidInput_ctor_table_ok.
  - destruct o as [usb | usb c | usb |]; simpl.
    + apply handle_keyboard_table_ok, IH.
    + unfold table_ok. rewrite handle_mouse_key_states. exact IH.
    + unfold table_ok. rewrite handle_joystick_key_states. exact IH.
    + apply reset_table_ok, IH.
Qed.

End Handlers.

(** ** The key table: queries, reset and the reserved slot *)

Section KeyTable.

Context `{Headers} {Mem : Memory}.

Lemma keydown_lookup (h : HidInput) (code : Z) :
  0 <= code < 128 -> keydown h code = key_states h !! Z.to_nat code.
Proof.
  intros Hc. unfold keydown, vec_get.
  destruct (code <? 128) eqn:E; [|lia].
  destruct (code <? 0) eqn:E'; [lia | reflexivity].
Qed.

(** C7. After any sequence of polls and other operations, reset leaves a key
    table in which the query answers 0 for every code, and the mouse
    accumulator, the previous mouse sample, the shared button mask and the
    joystick mask are what they were before the reset. *)
Theorem reset_clears_keys_only (h : HidInput) (code : Z) :
  reachable h -> 0 <= code ->
  keydown (reset h) code = Some 0 /\
  Forall (fun k => k = 0) (key_states (reset h)) /\
  val_x (reset h) = val_x h /\ val_y (reset h) = val_y h /\
  last_x (reset h) = last_x h /\ last_y (reset h) = last_y h /\
  mouse_state (reset h) = mouse_state h /\
  joystick_state (reset h) = joystick_state h /\
  mouse_en (reset h) = mouse_en h.
Proof.
  intros Hr Hc. apply reachable_table_ok in Hr. destruct Hr as [Hlen _].
  split; [|split; [|repeat split; reflexivity]].
  - destruct (Z.lt_ge_cases code 128) as [Hlt|Hge].
    + rewrite keydown_lookup by lia. simpl.
      apply lookup_fill0. lia.
    + unfold keydown. destruct (code <? 128) eqn:E; [lia | reflexivity].
  - simpl. unfold fill0. clear Hlen.
    induction (key_states h); simpl; constructor; auto.
Qed.

(** C8. In every reachable state, after construction and any sequence of
    keyboard, mouse and joystick polls and resets, the key-down query for
    code 0 returns 0. *)
Theorem slot0_never_down (h : HidInput) :
  reachable h -> keydown h 0 = Some 0.
Proof.
  intros Hr. apply reachable_table_ok in Hr. destruct Hr as [_ H0].
  rewrite keydown_lookup by lia. exact H0.
Qed.

(** C9. For every code of 128 or more the key-down query returns 0 whatever
    the object, even one whose table is empty, so the table is not accessed;
    for every code below 128 the index read lies inside the table, which has
    128 entries, and the query returns the entry found there. *)
Theorem keydown_in_bounds (h : HidInput) (code : Z) :
  reachable h -> 0 <= code ->
  (128 <= code ->
   forall h' : HidInput, keydown h' code = Some 0) /\
  (code < 128 ->
   length (key_states h) = 128%nat /\
   (Z.to_nat code < length (key_states h))%nat /\
   exists v, key_states h !! Z.to_nat code = Some v /\ keydown h code = Some v).
Proof.
  intros Hr Hc. apply reachable_table_ok in Hr. destruct Hr as [Hlen _]. split.
  - intros Hge h'. unfold keydown.
    destruct (code <? 128) eqn:E; [lia | reflexivity].
  - intros Hlt. split; [exact Hlen|]. split; [lia|].
    destruct (lookup_lt_is_Some_2 (key_states h) (Z.to_nat code)) as [v Hv]; [lia|].
    exists v. split; [exact Hv|]. rewrite keydown_lookup by lia. exact Hv.
Qed.

End KeyTable.

(** ** The mouse *)

Section Mouse.

Context `{Headers} {Mem : Memory}.

Lemma handle_mouse_one (usb : usb_host) (c : Z) (h : HidInput) (d : Z * list Z) :
  decoded usb HID_MOUSE = [d] ->
  handle_mouse usb c h =
  if truthy c then
    (set_val 0 0 (mouse_report (snd d) h),
     [tuh_hid_get_report (fst d);
      set_speed (val_x (mouse_report (snd d) h)) (val_y (mouse_report (snd d) h))])
  else (mouse_report (snd d) h, [tuh_hid_get_report (fst d)]).
Proof.
  intros Hd. unfold handle_mouse. rewrite mouse_loop_decoded, Hd. simpl.
  destruct (truthy c); reflexivity.
Qed.

Lemma handle_mouse_none (usb : usb_host) (c : Z) (h : HidInput) :
  decoded usb HID_MOUSE = [] ->
  handle_mouse usb c h =
  if truthy c then (set_val 0 0 h, [set_speed (val_x h) (val_y h)]) else (h, []).
Proof.
  intros Hd. unfold handle_mouse. rewrite mouse_loop_decoded, Hd. simpl.
  destruct (truthy c); reflexivity.
Qed.

Lemma truthy_true (z : Z) : z <> 0 -> truthy z = true.
Proof. intros Hz. unfold truthy. destruct (z =? 0) eqn:E; [lia | reflexivity]. Qed.

Lemma truthy_iff (z : Z) : truthy z = true <-> z <> 0.
Proof. unfold truthy. destruct (z =? 0) eqn:E; simpl; split; intros; try lia; congruence. Qed.

(** The three cases of the wrap-around guess. *)
Lemma glitch_spec (v last : Z) :
  (v < 0 -> 45 < last -> glitch v last = 127) /\
  (0 < v -> last < -45 -> glitch v last = -127) /\
  (~ (v < 0 /\ 45 < last) -> ~ (0 < v /\ last < -45) -> glitch v last = v).
Proof.
  unfold glitch.
  destruct (v <? 0) eqn:E1, (45 <? last) eqn:E2, (0 <? v) eqn:E3,
           (last <? -45) eqn:E4; simpl; repeat split; intros; try reflexivity; lia.
Qed.

Lemma mouse_report_last (m : list Z) (h : HidInput) :
  last_x (mouse_report m h) = glitch (mouse_x m) (last_x h) /\
  last_y (mouse_report m h) = glitch (mouse_y m) (last_y h) /\
  val_x (mouse_report m h) = last_x (mouse_report m h) /\
  val_y (mouse_report m h) = last_y (mouse_report m h).
Proof. repeat split; reflexivity. Qed.

(** Inside the array a read finds the array's byte, whatever the memory
    behind it holds. *)
Lemma u8_at_inside (buf : list Z) (off : nat) (b : Z) :
  buf !! off = Some b -> u8_at buf off = b.
Proof. intros E. unfold u8_at. rewrite E. reflexivity. Qed.

(** C3. On every mouse poll of a call, that is for every report the call
    decodes, of a buffer that holds the fields buttons, x and y: a negative
    raw delta after a stored previous delta above 45 becomes 127, a positive
    raw delta after a stored previous delta below -45 becomes -127, and any
    other raw delta is kept; the corrected value is the pending sample and
    the previous sample the next poll of the call starts from; after the
    last poll of the call it is what stays pending when no tick follows and
    what the sink gets when one does. *)
Theorem mouse_glitch_correction (usb : usb_host) (c : Z) (h : HidInput)
    (l1 l2 : list (Z * list Z)) (d : Z * list Z) :
  decoded usb HID_MOUSE = l1 ++ d :: l2 ->
  (3 <= length (snd d))%nat ->
  let before := fold_left (fun h d => mouse_report (snd d) h) l1 h in
  let after := mouse_report (snd d) before in
  let x := mouse_x (snd d) in
  let y := mouse_y (snd d) in
  let h' := fst (handle_mouse usb c h) in
  (x < 0 -> 45 < last_x before -> last_x after = 127) /\
  (0 < x -> last_x before < -45 -> last_x after = -127) /\
  (~ (x < 0 /\ 45 < last_x before) -> ~ (0 < x /\ last_x before < -45) ->
   last_x after = x) /\
  (y < 0 -> 45 < last_y before -> last_y after = 127) /\
  (0 < y -> last_y before < -45 -> last_y after = -127) /\
  (~ (y < 0 /\ 45 < last_y before) -> ~ (0 < y /\ last_y before < -45) ->
   last_y after = y) /\
  (val_x after = last_x after /\ val_y after = last_y after) /\
  fst (handle_mouse usb 0 h) =
    fold_left (fun h d => mouse_report (snd d) h) l2 after /\
  (l2 = [] ->
   (last_x h' = last_x after /\ last_y h' = last_y after) /\
   (c = 0 -> val_x h' = last_x after /\ val_y h' = last_y after) /\
   (c <> 0 ->
    snd (handle_mouse usb c h) =
    map (fun d => tuh_hid_get_report (fst d)) l1 ++
    [tuh_hid_get_report (fst d); set_speed (last_x after) (last_y after)])).
Proof.
  intros Hd _ before after x y h'.
  destruct (glitch_spec x (last_x before)) as (X1 & X2 & X3).
  destruct (glitch_spec y (last_y before)) as (Y1 & Y2 & Y3).
  destruct (mouse_report_last (snd d) before) as (Lx & Ly & Vx & Vy).
  fold after in Lx, Ly, Vx, Vy. fold x in Lx. fold y in Ly.
  rewrite Lx, Ly.
  do 6 (split; [assumption|]).
  split; [split; congruence|].
  assert (Hfold : forall l,
            fold_left (fun h d => mouse_report (snd d) h) (l1 ++ d :: l) h =
            fold_left (fun h d => mouse_report (snd d) h) l after).
  { intros l. rewrite fold_left_app. reflexivity. }
  split.
  - unfold handle_mouse. rewrite mouse_loop_decoded, Hd, Hfold. reflexivity.
  - intros ->. subst h'. unfold handle_mouse.
    rewrite mouse_loop_decoded, Hd, Hfold. cbn [fold_left].
    rewrite map_app. cbn [map].
    destruct (truthy c) eqn:Hc; cbn [fst snd].
    + split; [split; [exact Lx | exact Ly]|]. split.
      * intros ->. discriminate Hc.
      * intros _. rewrite <- app_assoc. cbn [app].
        rewrite Vx, Vy, Lx, Ly. reflexivity.
    + split; [split; [exact Lx | exact Ly]|]. split.
      * intros _. split; congruence.
      * intros Hne. rewrite (truthy_true c Hne) in Hc. discriminate Hc.
Qed.

(** C1, as the code has it. Each poll overwrites the pending sample: for
    two consecutive decoded polls with raw deltas (3,-2) and (4,1) and no
    tick between them, on an object whose previous sample does not trigger
    the wrap-around guess, the pending sample is (4,1); a call with zero
    elapsed cycles only decodes and asks for the next report; the next call
    with non-zero elapsed cycles that decodes nothing hands (4,1) to the
    sink and leaves the pending sample at (0,0). *)
Theorem mouse_latest_sample_delivered (usb1 usb2 usb3 : usb_host)
    (d1 d2 : Z * list Z) (h : HidInput) (c : Z) :
  decoded usb1 HID_MOUSE = [d1] -> mouse_x (snd d1) = 3 -> mouse_y (snd d1) = -2 ->
  decoded usb2 HID_MOUSE = [d2] -> mouse_x (snd d2) = 4 -> mouse_y (snd d2) = 1 ->
  decoded usb3 HID_MOUSE = [] ->
  -45 <= last_x h -> last_y h <= 45 -> c <> 0 ->
  let h1 := fst (handle_mouse usb1 0 h) in
  let h2 := fst (handle_mouse usb2 0 h1) in
  let h3 := fst (handle_mouse usb3 c h2) in
  snd (handle_mouse usb1 0 h) = [tuh_hid_get_report (fst d1)] /\
  (val_x h1, val_y h1) = (3, -2) /\
  snd (handle_mouse usb2 0 h1) = [tuh_hid_get_report (fst d2)] /\
  (val_x h2, val_y h2) = (4, 1) /\
  snd (handle_mouse usb3 c h2) = [set_speed 4 1] /\
  (val_x h3, val_y h3) = (0, 0).
Proof.
  intros D1 X1 Y1 D2 X2 Y2 D3 Lx Ly Hc h1 h2 h3.
  subst h3 h2 h1.
  rewrite (handle_mouse_one _ _ _ _ D1). simpl truthy. cbv iota. simpl fst. simpl snd.
  rewrite (handle_mouse_one _ _ _ _ D2). simpl truthy. cbv iota. simpl fst. simpl snd.
  rewrite (handle_mouse_none _ _ _ D3), (truthy_true c Hc). simpl fst. simpl snd.
  assert (G1x : glitch 3 (last_x h) = 3) by (apply glitch_spec; lia).
  assert (G1y : glitch (-2) (last_y h) = -2) by (apply glitch_spec; lia).
  simpl. rewrite X1, Y1, X2, Y2, G1x, G1y.
  repeat split; reflexivity.
Qed.

End Mouse.

(** ** Mouse buttons in the shared mask *)

Section MouseButtons.

Context `{Headers} {Mem : Memory}.

(** One button update: the named bit follows the button, the other bits of
    the low byte stay. *)
Lemma mouse_report_mask_bits (m : list Z) (h : HidInput) :
  Z.testbit (mouse_state (mouse_report m h)) 1 =
    truthy (Z.land (mouse_buttons_of m) MOUSE_BUTTON_LEFT) /\
  Z.testbit (mouse_state (mouse_report m h)) 0 =
    truthy (Z.land (mouse_buttons_of m) MOUSE_BUTTON_RIGHT) /\
  forall i, 2 <= i <= 7 ->
    Z.testbit (mouse_state (mouse_report m h)) i = Z.testbit (mouse_state h) i.
Proof.
  change (mouse_state (mouse_report m h)) with
    (Z.lor (Z.land (Z.lor (Z.land (mouse_state h) 0xfd)
                      (cond (truthy (Z.land (mouse_buttons_of m) MOUSE_BUTTON_LEFT)) 2 0))
              0xfe)
       (cond (truthy (Z.land (mouse_buttons_of m) MOUSE_BUTTON_RIGHT)) 1 0)).
  destruct (truthy (Z.land (mouse_buttons_of m) MOUSE_BUTTON_LEFT)),
           (truthy (Z.land (mouse_buttons_of m) MOUSE_BUTTON_RIGHT));
    unfold cond;
    (split; [|split]);
    try (rewrite Z.lor_spec, Z.land_spec, Z.lor_spec, Z.land_spec; simpl;
         rewrite ?andb_false_r, ?andb_true_r, ?orb_false_r, ?orb_true_r;
         reflexivity);
    intros i Hi;
    assert (Hcases : i = 2 \/ i = 3 \/ i = 4 \/ i = 5 \/ i = 6 \/ i = 7) by lia;
    rewrite Z.lor_spec, Z.land_spec, Z.lor_spec, Z.land_spec;
    destruct Hcases as [-> | [-> | [-> | [-> | [-> | ->]]]]]; simpl;
    rewrite ?andb_true_r, ?orb_false_r; reflexivity.
Qed.

Lemma handle_mouse_mask (usb : usb_host) (c : Z) (h : HidInput) :
  mouse_state (fst (handle_mouse usb c h)) =
  mouse_state (fold_left (fun h d => mouse_report (snd d) h) (decoded usb HID_MOUSE) h).
Proof.
  unfold handle_mouse. rewrite mouse_loop_decoded.
  destruct (truthy c); reflexivity.
Qed.

(** No mouse call, whatever it decodes, touches bits 2 to 7 of the mask. *)
Lemma handle_mouse_mask_frame (usb : usb_host) (c : Z) (h : HidInput) (i : Z) :
  2 <= i <= 7 ->
  Z.testbit (mouse_state (fst (handle_mouse usb c h))) i = Z.testbit (mouse_state h) i.
Proof.
  intros Hi. rewrite handle_mouse_mask.
  apply (fold_left_keeps
           (fun h' => Z.testbit (mouse_state h') i = Z.testbit (mouse_state h) i));
    [|reflexivity].
  intros a b Ha. destruct (mouse_report_mask_bits (snd b) a) as (_ & _ & Hf).
  rewrite Hf by exact Hi. exact Ha.
Qed.

(** C6. After a mouse call, bit 1 of the shared mask is set exactly when the
    left button of the report decoded last is pressed, bit 0 exactly when its
    right button is pressed, and bits 2 to 7 are what they were before. *)
Theorem mouse_buttons_into_mask (usb : usb_host) (c : Z) (h : HidInput)
    (d : Z * list Z) (i : Z) :
  last (decoded usb HID_MOUSE) = Some d -> 2 <= i <= 7 ->
  let h' := fst (handle_mouse usb c h) in
  (Z.testbit (mouse_state h') 1 = true <->
   Z.land (mouse_buttons_of (snd d)) MOUSE_BUTTON_LEFT <> 0) /\
  (Z.testbit (mouse_state h') 0 = true <->
   Z.land (mouse_buttons_of (snd d)) MOUSE_BUTTON_RIGHT <> 0) /\
  Z.testbit (mouse_state h') i = Z.testbit (mouse_state h) i.
Proof.
  intros Hd Hi h'. subst h'.
  split; [|split; [|apply handle_mouse_mask_frame, Hi]];
    rewrite handle_mouse_mask;
    apply last_Some in Hd; destruct Hd as [l' ->];
    rewrite fold_left_app; cbn [fold_left];
    match goal with
    | |- context [mouse_report ?m ?a] =>
        destruct (mouse_report_mask_bits m a) as (H1 & H0 & _)
    end.
  - rewrite H1. apply truthy_iff.
  - rewrite H0. apply truthy_iff.
Qed.

End MouseButtons.

(** ** The keyboard *)

Section Keyboard.

Context `{Headers} {Mem : Memory}.

Lemma key_is_down_iff (kb : list Z) (n : nat) :
  key_is_down (st_keys kb) n = true <->
  exists i, (i < 6)%nat /\ st_key_of kb i = Z.of_nat n.
Proof.
  unfold key_is_down, st_keys. rewrite existsb_exists. split.
  - intros (k & Hin & Hk). apply in_map_iff in Hin. destruct Hin as (i & <- & Hi).
    apply in_seq in Hi. exists i. split; [lia|]. apply Z.eqb_eq in Hk. exact Hk.
  - intros (i & Hi & Hk). exists (st_key_of kb i). split.
    + apply in_map_iff. exists i. split; [reflexivity|]. apply in_seq. lia.
    + apply Z.eqb_eq. exact Hk.
Qed.

(** What one decoded report leaves in a slot of a well-formed table. *)
Lemma keyboard_report_lookup (kb : list Z) (h : HidInput) (n : nat) :
  table_ok h -> kb_modifier kb = 0 -> (n < 128)%nat ->
  key_states (keyboard_report kb h) !! n =
  Some (if decide (n = 42 \/ n = 54 \/ n = 29 \/ n = 56 \/ n = 0)%nat then 0
        else cond (key_is_down (st_keys kb) n) 1 0).
Proof.
  intros [Hlen H0] Hm Hn. unfold keyboard_report. simpl. rewrite Hm.
  case_decide as Hc.
  - destruct (decide (n = 0%nat)) as [->|Hn0].
    + rewrite lookup_update_modifiers_other by lia.
      rewrite lookup_update_keys_0. exact H0.
    + apply lookup_update_modifiers_none; [rewrite length_update_keys; lia | lia].
  - rewrite lookup_update_modifiers_other by lia.
    apply lookup_update_keys. lia.
Qed.

(** C4. The key table is recomputed from the report decoded last, a buffer
    that holds a whole keyboard report. With no
    modifier bit set: if every key slot of the report holds either nothing or
    one source code [k] whose scan code is a slot of the table other than the
    four modifier slots, and [k] is in the report, then the mapped slot reads
    down and every other slot reads not-down; if the report is empty, every
    slot reads not-down. *)
Theorem key_table_recomputed (usb : usb_host) (h : HidInput) (d : Z * list Z)
    (code : Z) :
  reachable h ->
  last (decoded usb HID_KEYBOARD) = Some d ->
  (8 <= length (snd d))%nat ->
  kb_modifier (snd d) = 0 ->
  0 <= code < 128 ->
  let h' := fst (handle_keyboard usb h) in
  (forall k : Z,
     0 < k < 128 ->
     0 < st_key_lookup_hid_gb k < 128 ->
     ~ In (st_key_lookup_hid_gb k) [ATARI_LSHIFT; ATARI_RSHIFT; ATARI_CTRL; ATARI_ALT] ->
     (forall i, (i < 6)%nat -> kb_keycode (snd d) i = 0 \/ kb_keycode (snd d) i = k) ->
     (exists i, (i < 6)%nat /\ kb_keycode (snd d) i = k) ->
     keydown h' (st_key_lookup_hid_gb k) = Some 1 /\
     (code <> st_key_lookup_hid_gb k -> keydown h' code = Some 0)) /\
  ((forall i, (i < 6)%nat -> kb_keycode (snd d) i = 0) ->
   keydown h' code = Some 0).
Proof.
  intros Hr Hd _ Hmod Hc h'.
  apply last_Some in Hd. destruct Hd as [l' Hd].
  assert (Hks : forall n, (n < 128)%nat ->
            key_states h' !! n =
            Some (if decide (n = 42 \/ n = 54 \/ n = 29 \/ n = 56 \/ n = 0)%nat then 0
                  else cond (key_is_down (st_keys (snd d)) n) 1 0)).
  { intros n Hn. subst h'. rewrite handle_keyboard_decoded, Hd, fold_left_app.
    cbn [fold_left fst]. apply keyboard_report_lookup; [|exact Hmod|exact Hn].
    apply fold_left_keeps; [|apply reachable_table_ok, Hr].
    intros a b. apply keyboard_report_table_ok. }
  assert (Hkey : forall i k, kb_keycode (snd d) i = k -> 0 < k < 128 ->
            st_key_of (snd d) i = st_key_lookup_hid_gb k).
  { intros i k Hi Hk. unfold st_key_of. rewrite Hi.
    replace ((0 <? k) && (k <? 128)) with true; [reflexivity|].
    symmetry. apply andb_true_iff. split; apply Z.ltb_lt; lia. }
  assert (Hnone : forall i, kb_keycode (snd d) i = 0 -> st_key_of (snd d) i = 0).
  { intros i Hi. unfold st_key_of. rewrite Hi. reflexivity. }
  split.
  - intros k Hk Hm Hnm Hall (i0 & Hi0 & Hk0).
    set (m := st_key_lookup_hid_gb k) in *.
    assert (Hnotmod : ~ (Z.to_nat m = 42 \/ Z.to_nat m = 54 \/ Z.to_nat m = 29 \/
                         Z.to_nat m = 56 \/ Z.to_nat m = 0)%nat).
    { intros Hx. apply Hnm. simpl.
      unfold ATARI_LSHIFT, ATARI_RSHIFT, ATARI_CTRL, ATARI_ALT. lia. }
    split.
    + rewrite keydown_lookup by lia. rewrite Hks by lia.
      case_decide; [contradiction|].
      replace (key_is_down (st_keys (snd d)) (Z.to_nat m)) with true; [reflexivity|].
      symmetry. apply key_is_down_iff. exists i0. split; [exact Hi0|].
      rewrite (Hkey i0 k Hk0 Hk). fold m. lia.
    + intros Hne. rewrite keydown_lookup by lia. rewrite Hks by lia.
      case_decide; [reflexivity|].
      destruct (key_is_down (st_keys (snd d)) (Z.to_nat code)) eqn:E; [|reflexivity].
      exfalso. apply key_is_down_iff in E. destruct E as (i & Hi & E).
      destruct (Hall i Hi) as [Hz | Hz].
      * rewrite (Hnone i Hz) in E. lia.
      * rewrite (Hkey i k Hz Hk) in E. fold m in E. lia.
  - intros Hall. rewrite keydown_lookup by lia. rewrite Hks by lia.
    case_decide; [reflexivity|].
    destruct (key_is_down (st_keys (snd d)) (Z.to_nat code)) eqn:E; [|reflexivity].
    exfalso. apply key_is_down_iff in E. destruct E as (i & Hi & E).
    rewrite (Hnone i (Hall i Hi)) in E. lia.
Qed.

End Keyboard.

(** ** The joystick *)

Section Joystick.

Context `{Headers} {Mem : Memory}.

Lemma testbit_shiftl_1 (b i : Z) :
  0 <= b -> 0 <= i -> Z.testbit (Z.shiftl 1 b) i = (i =? b).
Proof.
  intros Hb Hi. rewrite Z.shiftl_1_l, Z.pow2_bits_eqb by exact Hb.
  apply Z.eqb_sym.
Qed.

Lemma testbit_shiftl_3 (b i : Z) :
  0 <= b -> 0 <= i -> Z.testbit (Z.shiftl 3 b) i = (i =? b) || (i =? b + 1).
Proof.
  intros Hb Hi. rewrite Z.shiftl_spec by exact Hi.
  change 3 with (Z.ones 2). rewrite Z.testbit_ones by lia.
  destruct (Z.leb_spec 0 (i - b)), (Z.ltb_spec (i - b) 2),
           (Z.eqb_spec i b), (Z.eqb_spec i (b + 1)); simpl; try reflexivity; lia.
Qed.

(** The three outcomes of the axis code on the pair at offset [b]. *)
Lemma axis_pair_bits (js b value i : Z) :
  0 <= b -> 0 <= i ->
  let cleared := Z.land js (Z.lnot (Z.shiftl 0x3 b)) in
  let js' := if value <? 0x80 then Z.lor cleared (Z.shiftl 1 b)
             else if 0x80 <? value then Z.lor cleared (Z.shiftl 1 (b + 1))
             else cleared in
  Z.testbit js' i =
  if i =? b then value <? 0x80
  else if i =? b + 1 then 0x80 <? value
  else Z.testbit js i.
Proof.
  intros Hb Hi cleared js'. subst js' cleared.
  destruct (Z.ltb_spec value 0x80), (Z.ltb_spec 0x80 value); try lia;
    rewrite ?Z.lor_spec, Z.land_spec, Z.lnot_spec, testbit_shiftl_3,
            ?testbit_shiftl_1 by lia;
    destruct (Z.eqb_spec i b), (Z.eqb_spec i (b + 1)); simpl;
    rewrite ?andb_false_r, ?andb_true_r, ?orb_false_r, ?orb_true_r;
    try reflexivity; lia.
Qed.

(** C5, as the code has it. For a desktop-control input item with usage X or
    Y that is in the report, the two bits of its pair (offset 2 for X on
    port 0, 6 for X on port 1, 0 for Y on port 0, 4 for Y on port 1) are
    recomputed from the value alone: the low bit is set exactly when the
    value is below 0x80, the high bit exactly when it is above 0x80, both are
    clear at 0x80, and every other bit of the joystick mask is kept. *)
Theorem joystick_axis_decoding (joystick : Z) (js : list Z)
    (item : HID_ReportItem_t) (h : HidInput) (value bit i : Z) :
  USB_GetHIDReportItemInfo js item = Some value ->
  Usage_Page item = USAGE_PAGE_GENERIC_DCTRL ->
  ItemType item = HID_REPORT_ITEM_In ->
  USAGE_PAGE_GENERIC_DCTRL <> USAGE_PAGE_BUTTON ->
  (Usage_Usage item = USAGE_X /\ joystick = 0 /\ bit = 2) \/
  (Usage_Usage item = USAGE_X /\ joystick = 1 /\ bit = 6) \/
  (Usage_Usage item = USAGE_Y /\ USAGE_Y <> USAGE_X /\ joystick = 0 /\ bit = 0) \/
  (Usage_Usage item = USAGE_Y /\ USAGE_Y <> USAGE_X /\ joystick = 1 /\ bit = 4) ->
  0 <= i ->
  let h' := joystick_item joystick js item h in
  (Z.testbit (joystick_state h') bit = true <-> value < 0x80) /\
  (Z.testbit (joystick_state h') (bit + 1) = true <-> 0x80 < value) /\
  (value = 0x80 ->
   Z.testbit (joystick_state h') bit = false /\
   Z.testbit (joystick_state h') (bit + 1) = false) /\
  (i <> bit -> i <> bit + 1 ->
   Z.testbit (joystick_state h') i = Z.testbit (joystick_state h) i).
Proof.
  intros Hget Hpage Htype Hpages Hcase Hi h'.
  assert (Hb : 0 <= bit) by (destruct Hcase as [C|[C|[C|C]]]; lia).
  assert (Hjs : forall n, 0 <= n ->
            Z.testbit (joystick_state h') n =
            if n =? bit then value <? 0x80
            else if n =? bit + 1 then 0x80 <? value
            else Z.testbit (joystick_state h) n).
  { intros n Hn. rewrite <- (axis_pair_bits (joystick_state h) bit value n Hb Hn).
    subst h'. unfold joystick_item. rewrite Hget, Hpage, Htype.
    replace (USAGE_PAGE_GENERIC_DCTRL =? USAGE_PAGE_BUTTON) with false
      by (symmetry; apply Z.eqb_neq; exact Hpages).
    rewrite !Z.eqb_refl. cbn [andb].
    destruct Hcase as [(Hu & -> & ->) | [(Hu & -> & ->) |
                       [(Hu & Hxy & -> & ->) | (Hu & Hxy & -> & ->)]]];
      rewrite Hu, ?Z.eqb_refl;
      try (replace (USAGE_Y =? USAGE_X) with false
             by (symmetry; apply Z.eqb_neq; exact Hxy));
      rewrite ?orb_true_r; cbn [orb Z.eqb Z.add Pos.add Pos.succ];
      destruct (value <? 0x80), (0x80 <? value); reflexivity. }
  rewrite !Hjs by lia. rewrite !Z.eqb_refl.
  replace (bit + 1 =? bit) with false by (symmetry; apply Z.eqb_neq; lia).
  split; [apply Z.ltb_lt|]. split; [apply Z.ltb_lt|].
  split; [intros ->; split; reflexivity|].
  intros N1 N2.
  replace (i =? bit) with false by (symmetry; apply Z.eqb_neq; exact N1).
  replace (i =? bit + 1) with false by (symmetry; apply Z.eqb_neq; exact N2).
  reflexivity.
Qed.

End Joystick.

(** ** Joystick ports *)

Section JoystickPorts.

Context `{Headers} {Mem : Memory}.

Lemma candidates_not_skipped (usb : usb_host) (d : Z * list Z) :
  In d (candidates usb) -> skips usb (fst d) HID_GENERIC = false.
Proof.
  unfold candidates. intros Hin. apply filter_In in Hin.
  destruct Hin as [_ Hn]. apply negb_true_iff in Hn. exact Hn.
Qed.

Lemma handle_joystick_candidates (usb : usb_host) (h : HidInput) :
  handle_joystick usb h = joystick_loop usb (candidates usb) 2 h.
Proof. unfold handle_joystick. apply joystick_loop_candidates. Qed.

(** The guard asks for the type of device 0 or 1, never for the type of the
    device at hand. *)
Lemma guard_reads_address_0_or_1 (usb : usb_host) (addr tp : Z) :
  skips usb addr tp =
  truthy (tuh_hid_get_type usb (if addr =? tp then 0 else 1)).
Proof. unfold skips. destruct (addr =? tp); reflexivity. Qed.

(** With a typed device at address 1, no joystick is ever decoded, unless
    its address happens to equal the enumerator [HID_GENERIC]. *)
Lemma typed_device_1_hides_joysticks (usb : usb_host) (h : HidInput) :
  tuh_hid_get_type usb 1 <> 0 ->
  Forall (fun d => fst d <> HID_GENERIC) (device usb) ->
  handle_joystick usb h = (h, []).
Proof.
  intros Ht Hall. unfold handle_joystick.
  induction (device usb) as [|[addr buf] devs IH]; simpl; [reflexivity|].
  inversion Hall as [|? ? Hd Hrest]; subst. simpl in Hd.
  rewrite guard_reads_address_0_or_1.
  replace (addr =? HID_GENERIC) with false by (symmetry; apply Z.eqb_neq; exact Hd).
  rewrite (truthy_true _ Ht). apply IH, Hrest.
Qed.

(** With untyped addresses 0 and 1, every device is a joystick candidate,
    whatever its own type. *)
Lemma untyped_device_1_admits_all (usb : usb_host) :
  tuh_hid_get_type usb 0 = 0 -> tuh_hid_get_type usb 1 = 0 ->
  candidates usb = device usb.
Proof.
  intros H0 H1. unfold candidates.
  induction (device usb) as [|[addr buf] devs IH]; simpl; [reflexivity|].
  rewrite guard_reads_address_0_or_1.
  destruct (addr =? HID_GENERIC); [rewrite H0 | rewrite H1]; simpl; rewrite IH;
    reflexivity.
Qed.

(** C10. The port counter is decremented for every candidate before the
    mounted and busy checks: with a first candidate that is unmounted or
    busy and a ready second one, the second is decoded with counter 0, and
    neither the third nor any later candidate is decoded or asked for a
    report. *)
Theorem busy_candidate_takes_a_port (usb : usb_host) (h : HidInput)
    (d1 d2 d3 : Z * list Z) (rest : list (Z * list Z)) :
  candidates usb = d1 :: d2 :: d3 :: rest ->
  ready usb (fst d1) = false ->
  ready usb (fst d2) = true ->
  handle_joystick usb h =
  (joystick_report usb 0 (fst d2) (snd d2) h, [tuh_hid_get_report (fst d2)]).
Proof.
  intros Hc R1 R2. rewrite handle_joystick_candidates.
  assert (S1 : skips usb (fst d1) HID_GENERIC = false)
    by (apply candidates_not_skipped; rewrite Hc; simpl; auto).
  assert (S2 : skips usb (fst d2) HID_GENERIC = false)
    by (apply candidates_not_skipped; rewrite Hc; simpl; auto).
  assert (S3 : skips usb (fst d3) HID_GENERIC = false)
    by (apply candidates_not_skipped; rewrite Hc; simpl; auto).
  rewrite Hc. destruct d1 as [a1 b1], d2 as [a2 b2], d3 as [a3 b3].
  simpl in *. rewrite S1, R1, S2, R2, S3. reflexivity.
Qed.

End JoystickPorts.

(** ** The claims on the sample instances *)

Section OnSamples.

#[local] Existing Instance Sample.headers.
#[local] Existing Instance Sample.memory.

Import Sample.

(** C2 on the code. A keyboard at address 1 and a mounted, idle pad of type
    [HID_GENERIC] at address 2: the joystick call skips the pad as well and
    changes nothing. A hub at address 1, a keyboard at address 4 and a pad at
    address 5: the keyboard is decoded as the first joystick with counter 1
    and the pad as the second with counter 0. *)
Theorem joystick_guard_ignores_device_type :
  tuh_hid_get_type kb_and_pad 2 = HID_GENERIC /\
  ready kb_and_pad 2 = true /\
  handle_joystick kb_and_pad fresh = (fresh, []) /\
  tuh_hid_get_type hub_kb_pad 4 = HID_KEYBOARD /\
  handle_joystick hub_kb_pad fresh =
  (joystick_report hub_kb_pad 0 5 [0; 0; 0; 0]
     (joystick_report hub_kb_pad 1 4 kb_a fresh),
   [tuh_hid_get_report 4; tuh_hid_get_report 5]) /\
  joystick_state (fst (handle_joystick hub_kb_pad fresh)) = 0x44.
Proof. repeat split; vm_compute; reflexivity. Qed.

(** C1 as stated fails. Polls of (3,-2) and then (4,1) on a constructed
    object, no tick between them: the sink gets (4,1) at the next tick, and
    (7,-1) is never handed over, whether the tick comes with a later call
    that decodes nothing or with the second poll itself. *)
Lemma mouse_polls_do_not_accumulate :
  let h1 := fst (handle_mouse (open_host [(4, mouse_3_m2)] no_info) 0 fresh) in
  let h2 := fst (handle_mouse (open_host [(4, mouse_4_1)] no_info) 0 h1) in
  (mouse_x mouse_3_m2, mouse_y mouse_3_m2) = (3, -2) /\
  (mouse_x mouse_4_1, mouse_y mouse_4_1) = (4, 1) /\
  (val_x h2, val_y h2) = (4, 1) /\
  snd (handle_mouse (open_host [] no_info) 1 h2) = [set_speed 4 1] /\
  ~ In (set_speed 7 (-1)) (snd (handle_mouse (open_host [] no_info) 1 h2)) /\
  snd (handle_mouse (open_host [(4, mouse_4_1)] no_info) 1 h1) =
    [tuh_hid_get_report 4; set_speed 4 1].
Proof.
  repeat split; try (vm_compute; reflexivity).
  vm_compute. intros [E | []]. discriminate E.
Qed.

(** C5 as stated fails. An X axis with logical range 0..1023 on port 0
    reporting 300: the value is below the midpoint of the logical range, so
    the low bit of the pair (bit 2) should be set and the high bit clear;
    the code compares with 0x80, sets bit 3 and leaves bit 2 clear. *)
Lemma axis_midpoint_is_not_the_descriptors :
  let h' := joystick_item 0 [44; 1] axis_x10 fresh in
  USB_GetHIDReportItemInfo [44; 1] axis_x10 = Some 300 /\
  spec_logical_midpoint axis_x10 = 512 /\
  spec_axis_pair axis_x10 300 = (true, false) /\
  (Z.testbit (joystick_state h') 2, Z.testbit (joystick_state h') 3) = (false, true).
Proof. repeat split. Qed.

(** *** Instances of the theorems *)

Lemma mouse_latest_sample_delivered_witness :
  snd (handle_mouse (open_host [] no_info) 1
         (fst (handle_mouse (open_host [(4, mouse_4_1)] no_info) 0
                 (fst (handle_mouse (open_host [(4, mouse_3_m2)] no_info) 0 fresh)))))
  = [set_speed 4 1].
Proof.
  refine (proj1 (proj2 (proj2 (proj2 (proj2
    (mouse_latest_sample_delivered
       (open_host [(4, mouse_3_m2)] no_info) (open_host [(4, mouse_4_1)] no_info)
       (open_host [] no_info) (4, mouse_3_m2) (4, mouse_4_1) fresh 1
       eq_refl eq_refl eq_refl eq_refl eq_refl eq_refl eq_refl _ _ _)))))).
  - simpl. lia.
  - simpl. lia.
  - lia.
Defined.

Lemma mouse_glitch_correction_witness :
  last_x (fst (handle_mouse
                 (open_host [(4, mouse_100_m90); (5, mouse_m5_3_left)] no_info)
                 0 fresh)) = 127 /\
  last_y (fst (handle_mouse
                 (open_host [(4, mouse_100_m90); (5, mouse_m5_3_left)] no_info)
                 0 fresh)) = -127.
Proof.
  destruct (mouse_glitch_correction
              (open_host [(4, mouse_100_m90); (5, mouse_m5_3_left)] no_info) 0
              fresh [(4, mouse_100_m90)] [] (5, mouse_m5_3_left) eq_refl
              ltac:(simpl; lia))
    as (X & _ & _ & _ & Y & _ & _ & _ & Last).
  destruct (Last eq_refl) as ((Lx & Ly) & _).
  split; [rewrite Lx; apply X | rewrite Ly; apply Y]; reflexivity.
Defined.

Lemma mouse_buttons_into_mask_witness :
  Z.testbit
    (mouse_state (fst (handle_mouse (open_host [(4, mouse_m5_3_left)] no_info) 0
                         (set_mouse_state 0xfc fresh)))) 5
  = Z.testbit (mouse_state (set_mouse_state 0xfc fresh)) 5.
Proof.
  refine (proj2 (proj2
    (mouse_buttons_into_mask (open_host [(4, mouse_m5_3_left)] no_info) 0
       (set_mouse_state 0xfc fresh) (4, mouse_m5_3_left) 5 eq_refl _))).
  lia.
Defined.

Lemma key_table_recomputed_witness :
  keydown (fst (handle_keyboard (open_host [(4, kb_a)] no_info) fresh)) 30 = Some 1 /\
  keydown (fst (handle_keyboard (open_host [(4, kb_a)] no_info) fresh)) 31 = Some 0 /\
  keydown (fst (handle_keyboard (open_host [(4, kb_none)] no_info)
                  (fst (handle_keyboard (open_host [(4, kb_a)] no_info) fresh)))) 30
  = Some 0.
Proof.
  assert (Hmod : ~ In (st_key_lookup_hid_gb 4)
                   [ATARI_LSHIFT; ATARI_RSHIFT; ATARI_CTRL; ATARI_ALT])
    by (simpl; intros [E | [E | [E | [E | []]]]]; discriminate E).
  destruct (key_table_recomputed (open_host [(4, kb_a)] no_info) fresh (4, kb_a) 31
              (reachable_ctor raw) eq_refl ltac:(simpl; lia) eq_refl ltac:(lia))
    as [One _].
  destruct (One 4 ltac:(lia) ltac:(split; reflexivity) Hmod) as [Down Up].
  - intros i Hi. destruct i as [|i]; [right; reflexivity | left].
    do 5 (destruct i as [|i]; [reflexivity|]). lia.
  - exists 0%nat. split; [lia | reflexivity].
  - split; [exact Down|]. split; [apply Up; simpl; lia|].
    refine (proj2
      (key_table_recomputed (open_host [(4, kb_none)] no_info)
         (fst (step (op_keyboard (open_host [(4, kb_a)] no_info)) fresh))
         (4, kb_none) 30 (reachable_step _ _ (reachable_ctor raw)) eq_refl _
         eq_refl _) _).
    + simpl. lia.
    + lia.
    + intros i Hi. do 6 (destruct i as [|i]; [reflexivity|]). lia.
Defined.

Lemma joystick_axis_decoding_witness :
  Z.testbit (joystick_state (joystick_item 0 [0; 0] axis_x8 fresh)) 2 = true.
Proof.
  refine (proj2 (proj1
    (joystick_axis_decoding 0 [0; 0] axis_x8 fresh 0 2 5 eq_refl eq_refl eq_refl _ _ _)) _).
  - simpl. lia.
  - left. repeat split.
  - lia.
  - lia.
Defined.

Lemma reset_clears_keys_only_witness :
  keydown (reset (fst (step (op_keyboard (open_host [(4, kb_a)] no_info)) fresh))) 30
  = Some 0.
Proof.
  refine (proj1
    (reset_clears_keys_only
       (fst (step (op_keyboard (open_host [(4, kb_a)] no_info)) fresh)) 30
       (reachable_step _ _ (reachable_ctor raw)) _)).
  lia.
Defined.

Lemma slot0_never_down_witness :
  keydown (fst (step (op_keyboard (open_host [(4, kb_a)] no_info)) fresh)) 0 = Some 0.
Proof.
  exact (slot0_never_down _ (reachable_step _ _ (reachable_ctor raw))).
Defined.

Lemma keydown_in_bounds_witness :
  keydown raw 200 = Some 0 /\
  (Z.to_nat 5 < length (key_states fresh))%nat.
Proof.
  split.
  - refine (proj1 (keydown_in_bounds fresh 200 (reachable_ctor raw) _) _ raw); lia.
  - refine (proj1 (proj2
      (proj2 (keydown_in_bounds fresh 5 (reachable_ctor raw) _) _))); lia.
Defined.

Lemma busy_candidate_takes_a_port_witness :
  handle_joystick three_pads fresh =
  (joystick_report three_pads 0 5 [255; 0; 0; 0] fresh, [tuh_hid_get_report 5]).
Proof.
  exact (busy_candidate_takes_a_port three_pads fresh
           (4, [0; 0; 0; 0]) (5, [255; 0; 0; 0]) (6, [0; 0; 0; 0]) []
           eq_refl eq_refl eq_refl).
Defined.

End OnSamples.

(** ** More on the keyboard *)

Section KeyboardMore.

Context `{Headers} {Mem : Memory}.

(** What the modifier pass leaves in its four slots. *)
Lemma lookup_update_modifiers_slots (m : Z) (ks : list Z) :
  (56 < length ks)%nat ->
  update_modifiers m ks !! 42%nat =
    Some (cond (truthy (Z.land m KEYBOARD_MODIFIER_LEFTSHIFT)) 1 0) /\
  update_modifiers m ks !! 54%nat =
    Some (cond (truthy (Z.land m KEYBOARD_MODIFIER_RIGHTSHIFT)) 1 0) /\
  update_modifiers m ks !! 29%nat =
    Some (cond (truthy (Z.land m KEYBOARD_MODIFIER_LEFTCTRL) ||
                truthy (Z.land m KEYBOARD_MODIFIER_RIGHTCTRL)) 1 0) /\
  update_modifiers m ks !! 56%nat =
    Some (cond (truthy (Z.land m KEYBOARD_MODIFIER_LEFTALT) ||
                truthy (Z.land m KEYBOARD_MODIFIER_RIGHTALT)) 1 0).
Proof.
  intros Hlen. unfold update_modifiers, vec_set.
  unfold ATARI_LSHIFT, ATARI_RSHIFT, ATARI_CTRL, ATARI_ALT.
  repeat split;
    repeat first
      [ rewrite list_lookup_insert_eq by (rewrite ?length_insert; lia); reflexivity
      | rewrite list_lookup_insert_ne by lia ].
Qed.

(** A slot that is neither slot 0 nor a modifier slot holds the outcome of
    the key loop. *)
Lemma keyboard_report_lookup_key (kb : list Z) (h : HidInput) (n : nat) :
  (1 <= n < length (key_states h))%nat ->
  n <> 42%nat -> n <> 54%nat -> n <> 29%nat -> n <> 56%nat ->
  key_states (keyboard_report kb h) !! n =
  Some (cond (key_is_down (st_keys kb) n) 1 0).
Proof.
  intros Hn N1 N2 N3 N4. unfold keyboard_report. simpl.
  rewrite lookup_update_modifiers_other by assumption.
  apply lookup_update_keys. exact Hn.
Qed.

(** The object a keyboard call returns, whatever it decoded, has a
    well-formed table when it started with one. *)
Lemma keyboard_fold_table_ok (l : list (Z * list Z)) (h : HidInput) :
  table_ok h ->
  table_ok (fold_left (fun h d => keyboard_report (snd d) h) l h).
Proof.
  intros Hh. apply fold_left_keeps; [|exact Hh].
  intros a b. apply keyboard_report_table_ok.
Qed.

(** X1. After a keyboard call whose last decoded buffer holds a whole
    keyboard report, a slot other than slot 0 and the four modifier
    slots reads down exactly when one of the six key slots of that report
    holds a code strictly between 0 and 128 that the table maps
    to that slot; otherwise it reads not-down. *)
Theorem key_slot_down_iff (usb : usb_host) (h : HidInput) (d : Z * list Z)
    (n : Z) :
  reachable h ->
  last (decoded usb HID_KEYBOARD) = Some d ->
  (8 <= length (snd d))%nat ->
  1 <= n < 128 ->
  ~ In n [ATARI_LSHIFT; ATARI_RSHIFT; ATARI_CTRL; ATARI_ALT] ->
  let h' := fst (handle_keyboard usb h) in
  (keydown h' n = Some 1 <->
   exists i, (i < 6)%nat /\ 0 < kb_keycode (snd d) i < 128 /\
             st_key_lookup_hid_gb (kb_keycode (snd d) i) = n) /\
  (keydown h' n = Some 1 \/ keydown h' n = Some 0).
Proof.
  intros Hr Hd _ Hn Hmod h'.
  apply last_Some in Hd. destruct Hd as [l' Hd].
  assert (Hk : keydown h' n =
               Some (cond (key_is_down (st_keys (snd d)) (Z.to_nat n)) 1 0)).
  { rewrite keydown_lookup by lia. subst h'.
    rewrite handle_keyboard_decoded, Hd, fold_left_app. cbn [fold_left fst].
    pose proof (keyboard_fold_table_ok l' h (reachable_table_ok h Hr)) as [Hlen _].
    apply keyboard_report_lookup_key; try (rewrite Hlen; lia);
      intros E; apply Hmod; simpl;
      unfold ATARI_LSHIFT, ATARI_RSHIFT, ATARI_CTRL, ATARI_ALT; lia. }
  rewrite Hk. split.
  - destruct (key_is_down (st_keys (snd d)) (Z.to_nat n)) eqn:E; simpl.
    + split; [intros _ | reflexivity].
      apply key_is_down_iff in E. destruct E as (i & Hi & E).
      exists i. split; [exact Hi|]. unfold st_key_of in E.
      destruct ((0 <? kb_keycode (snd d) i) && (kb_keycode (snd d) i <? 128)) eqn:R.
      * apply andb_true_iff in R. destruct R as [R1 R2].
        apply Z.ltb_lt in R1. apply Z.ltb_lt in R2. split; lia.
      * lia.
    + split; [discriminate|]. intros (i & Hi & Hc & Ht). exfalso.
      assert (E' : key_is_down (st_keys (snd d)) (Z.to_nat n) = true).
      { apply key_is_down_iff. exists i. split; [exact Hi|]. unfold st_key_of.
        replace ((0 <? kb_keycode (snd d) i) && (kb_keycode (snd d) i <? 128))
          with true by (symmetry; apply andb_true_iff; split; apply Z.ltb_lt; lia).
        lia. }
      congruence.
  - destruct (key_is_down (st_keys (snd d)) (Z.to_nat n)); [left | right]; reflexivity.
Qed.

(** X2. After a keyboard call the four modifier slots follow the modifier bits
    of the report decoded last and nothing else: left shift alone drives slot
    42, right shift slot 54, either control slot 29, either alt slot 56,
    whatever the six key slots hold. *)
Theorem modifier_slots_follow_bits (usb : usb_host) (h : HidInput)
    (d : Z * list Z) :
  reachable h ->
  last (decoded usb HID_KEYBOARD) = Some d ->
  let h' := fst (handle_keyboard usb h) in
  let m := kb_modifier (snd d) in
  keydown h' ATARI_LSHIFT =
    Some (if decide (Z.land m KEYBOARD_MODIFIER_LEFTSHIFT <> 0) then 1 else 0) /\
  keydown h' ATARI_RSHIFT =
    Some (if decide (Z.land m KEYBOARD_MODIFIER_RIGHTSHIFT <> 0) then 1 else 0) /\
  keydown h' ATARI_CTRL =
    Some (if decide (Z.land m KEYBOARD_MODIFIER_LEFTCTRL <> 0 \/
                     Z.land m KEYBOARD_MODIFIER_RIGHTCTRL <> 0) then 1 else 0) /\
  keydown h' ATARI_ALT =
    Some (if decide (Z.land m KEYBOARD_MODIFIER_LEFTALT <> 0 \/
                     Z.land m KEYBOARD_MODIFIER_RIGHTALT <> 0) then 1 else 0).
Proof.
  intros Hr Hd h' m.
  apply last_Some in Hd. destruct Hd as [l' Hd].
  pose proof (keyboard_fold_table_ok l' h (reachable_table_ok h Hr)) as [Hlen _].
  assert (Hks : key_states h' =
                update_modifiers m
                  (update_keys (st_keys (snd d))
                     (key_states (fold_left (fun h d => keyboard_report (snd d) h) l' h)))).
  { subst h'. rewrite handle_keyboard_decoded, Hd, fold_left_app. reflexivity. }
  destruct (lookup_update_modifiers_slots m
              (update_keys (st_keys (snd d))
                 (key_states (fold_left (fun h d => keyboard_report (snd d) h) l' h))))
    as (S1 & S2 & S3 & S4); [rewrite length_update_keys; lia|].
  assert (T : forall z, truthy z = bool_decide (z <> 0)).
  { intros z. unfold truthy. case_bool_decide as Hz;
      destruct (Z.eqb_spec z 0) as [E|E]; simpl; try reflexivity; contradiction. }
  unfold ATARI_LSHIFT, ATARI_RSHIFT, ATARI_CTRL, ATARI_ALT.
  rewrite !keydown_lookup by lia. rewrite Hks.
  change (Z.to_nat 42) with 42%nat. change (Z.to_nat 54) with 54%nat.
  change (Z.to_nat 29) with 29%nat. change (Z.to_nat 56) with 56%nat.
  rewrite S1, S2, S3, S4, !T. unfold cond.
  repeat split; f_equal; repeat case_decide; repeat case_bool_decide;
    simpl; try reflexivity; tauto.
Qed.

End KeyboardMore.

(** ** The key table is recomputed, not updated *)

Section KeyboardSnapshot.

Context `{Headers} {Mem : Memory}.

(** The key loop reads the old table for its size and slot 0 only. *)
Lemma update_keys_forgets (keys ks1 ks2 : list Z) :
  length ks1 = length ks2 ->
  ks1 !! 0%nat = ks2 !! 0%nat ->
  update_keys keys ks1 = update_keys keys ks2.
Proof.
  intros Hlen H0. apply list_eq. intros i. unfold update_keys.
  rewrite !lookup_fold_insert, Hlen.
  case_decide as Hi; [reflexivity|].
  destruct i as [|i]; [exact H0|].
  rewrite !lookup_ge_None_2; [reflexivity | lia | lia].
Qed.

Lemma keyboard_report_forgets (kb : list Z) (h1 h2 : HidInput) :
  set_key_states [] h1 = set_key_states [] h2 ->
  length (key_states h1) = length (key_states h2) ->
  key_states h1 !! 0%nat = key_states h2 !! 0%nat ->
  keyboard_report kb h1 = keyboard_report kb h2.
Proof.
  intros Hrest Hlen H0. unfold keyboard_report.
  rewrite (update_keys_forgets _ _ _ Hlen H0).
  unfold set_key_states in *. injection Hrest as -> -> -> -> -> -> ->.
  reflexivity.
Qed.

(** A keyboard call changes the key table only, keeps its size and keeps
    slot 0. *)
Lemma handle_keyboard_rest (usb : usb_host) (h : HidInput) :
  set_key_states [] (fst (handle_keyboard usb h)) = set_key_states [] h /\
  length (key_states (fst (handle_keyboard usb h))) = length (key_states h) /\
  key_states (fst (handle_keyboard usb h)) !! 0%nat = key_states h !! 0%nat.
Proof.
  rewrite handle_keyboard_decoded. cbn [fst].
  apply (fold_left_keeps
           (fun h' => set_key_states [] h' = set_key_states [] h /\
                      length (key_states h') = length (key_states h) /\
                      key_states h' !! 0%nat = key_states h !! 0%nat));
    [|repeat split].
  intros a b (E1 & E2 & E3). repeat split.
  - rewrite <- E1. reflexivity.
  - rewrite <- E2. unfold keyboard_report. simpl.
    rewrite length_update_modifiers, length_update_keys. reflexivity.
  - rewrite <- E3. unfold keyboard_report. simpl.
    rewrite lookup_update_modifiers_other by lia. apply lookup_update_keys_0.
Qed.

(** From the second report on, a fold of reports does not depend on the
    key table it started from. *)
Lemma keyboard_fold_forgets (l : list (Z * list Z)) (h1 h2 : HidInput) :
  l <> [] ->
  set_key_states [] h1 = set_key_states [] h2 ->
  length (key_states h1) = length (key_states h2) ->
  key_states h1 !! 0%nat = key_states h2 !! 0%nat ->
  fold_left (fun h d => keyboard_report (snd d) h) l h1 =
  fold_left (fun h d => keyboard_report (snd d) h) l h2.
Proof.
  intros Hne E1 E2 E3. destruct l as [|d l]; [contradiction|].
  cbn [fold_left]. f_equal. apply keyboard_report_forgets; assumption.
Qed.

(** X3. A keyboard call that decodes at least one report gives the same object
    and asks for the same reports whether or not another keyboard call came
    before it: no key state survives from an earlier report. *)
Theorem keyboard_last_call_wins (usb1 usb2 : usb_host) (h : HidInput) :
  decoded usb2 HID_KEYBOARD <> [] ->
  handle_keyboard usb2 (fst (handle_keyboard usb1 h)) = handle_keyboard usb2 h.
Proof.
  intros Hne. rewrite !(handle_keyboard_decoded usb2). f_equal.
  destruct (handle_keyboard_rest usb1 h) as (E1 & E2 & E3).
  apply keyboard_fold_forgets; assumption.
Qed.

(** X4. Polling the keyboard twice on the same host snapshot gives what polling
    it once gives. *)
Theorem handle_keyboard_idempotent (usb : usb_host) (h : HidInput) :
  handle_keyboard usb (fst (handle_keyboard usb h)) = handle_keyboard usb h.
Proof.
  destruct (decoded usb HID_KEYBOARD) as [|d l] eqn:E.
  - rewrite !handle_keyboard_decoded, E. reflexivity.
  - rewrite !(handle_keyboard_decoded usb _). f_equal.
    destruct (handle_keyboard_rest usb h) as (E1 & E2 & E3).
    rewrite handle_keyboard_decoded in E1, E2, E3. cbn [fst] in E1, E2, E3.
    apply keyboard_fold_forgets; [rewrite E; discriminate | assumption ..].
Qed.

(** Every slot of a table holds 0 or 1 once a report was decoded into it. *)
Lemma keyboard_report_bits (kb : list Z) (h : HidInput) (n : nat) (v : Z) :
  table_ok h ->
  key_states (keyboard_report kb h) !! n = Some v -> v = 0 \/ v = 1.
Proof.
  intros Hok Hv. destruct Hok as [Hlen H0].
  assert (Hn : (n < 128)%nat).
  { apply lookup_lt_Some in Hv. unfold keyboard_report in Hv. simpl in Hv.
    rewrite length_update_modifiers, length_update_keys in Hv. lia. }
  destruct (decide (n = 0%nat)) as [->|N0].
  - unfold keyboard_report in Hv. simpl in Hv.
    rewrite lookup_update_modifiers_other, lookup_update_keys_0 in Hv by lia.
    left. congruence.
  - assert (Hc : exists b : bool, v = cond b 1 0).
    { destruct (lookup_update_modifiers_slots (kb_modifier kb)
                  (update_keys (st_keys kb) (key_states h)))
        as (S1 & S2 & S3 & S4); [rewrite length_update_keys; lia|].
      unfold keyboard_report in Hv. simpl in Hv.
      destruct (decide (n = 42%nat)) as [->|N1];
        [rewrite S1 in Hv; eexists; symmetry; injection Hv as Hv; exact Hv|].
      destruct (decide (n = 54%nat)) as [->|N2];
        [rewrite S2 in Hv; eexists; symmetry; injection Hv as Hv; exact Hv|].
      destruct (decide (n = 29%nat)) as [->|N3];
        [rewrite S3 in Hv; eexists; symmetry; injection Hv as Hv; exact Hv|].
      destruct (decide (n = 56%nat)) as [->|N4];
        [rewrite S4 in Hv; eexists; symmetry; injection Hv as Hv; exact Hv|].
      rewrite lookup_update_modifiers_other, lookup_update_keys in Hv by lia.
      eexists. symmetry. injection Hv as Hv. exact Hv. }
    destruct Hc as [[|] ->]; [right | left]; reflexivity.
Qed.

Lemma reachable_bits (h : HidInput) :
  reachable h -> forall n v, key_states h !! n = Some v -> v = 0 \/ v = 1.
Proof.
  induction 1 as [h0 | o h Hr IH]; intros n v Hv.
  - left. unfold HidInput_ctor in Hv. simpl in Hv.
    rewrite lookup_fill0 in Hv
      by (apply lookup_lt_Some in Hv; rewrite length_fill0 in Hv; exact Hv).
    congruence.
  - destruct o as [usb | usb c | usb |]; simpl in Hv.
    + rewrite handle_keyboard_decoded in Hv. cbn [fst] in Hv. revert n v Hv.
      apply (fold_left_keeps
               (fun h' => table_ok h' /\
                          forall n v, key_states h' !! n = Some v -> v = 0 \/ v = 1));
        [|split; [apply reachable_table_ok, Hr | exact IH]].
      intros a b [Hok Hb]. split; [apply keyboard_report_table_ok, Hok|].
      intros n v Hv. eapply keyboard_report_bits; eassumption.
    + rewrite handle_mouse_key_states in Hv. eapply IH, Hv.
    + rewrite handle_joystick_key_states in Hv. eapply IH, Hv.
    + left. rewrite lookup_fill0 in Hv by (apply lookup_lt_Some in Hv;
        rewrite length_fill0 in Hv; exact Hv). congruence.
Qed.

Lemma keydown_in_bounds_cases (h : HidInput) (code : Z) :
  reachable h -> 0 <= code ->
  keydown h code = Some 0 \/
  exists v, key_states h !! Z.to_nat code = Some v /\ keydown h code = Some v.
Proof.
  intros Hr Hc. destruct (Z.lt_ge_cases code 128) as [Hlt | Hge].
  - right. destruct (reachable_table_ok h Hr) as [Hlen _].
    destruct (lookup_lt_is_Some_2 (key_states h) (Z.to_nat code)) as [v Hv]; [lia|].
    exists v. split; [exact Hv|]. rewrite keydown_lookup by lia. exact Hv.
  - left. unfold keydown. destruct (code <? 128) eqn:E; [lia | reflexivity].
Qed.

(** X5. The key-down query answers 0 or 1 and nothing else, for every code and
    every object a program can hold. *)
Theorem keydown_is_boolean (h : HidInput) (code : Z) :
  reachable h -> 0 <= code ->
  st_keydown h code = Some 0 \/ st_keydown h code = Some 1.
Proof.
  intros Hr Hc. unfold st_keydown.
  destruct (keydown_in_bounds_cases h code Hr Hc) as [E | (v & Hv & E)].
  - left. exact E.
  - rewrite E. destruct (reachable_bits h Hr _ _ Hv) as [-> | ->]; auto.
Qed.

End KeyboardSnapshot.

(** ** What each handler leaves alone *)

Section Frames.

Context `{Headers} {Mem : Memory}.

(** X6. A keyboard call changes nothing but the key table. *)
Theorem handle_keyboard_frame (usb : usb_host) (h : HidInput) :
  mouse_state (fst (handle_keyboard usb h)) = mouse_state h /\
  joystick_state (fst (handle_keyboard usb h)) = joystick_state h /\
  val_x (fst (handle_keyboard usb h)) = val_x h /\
  val_y (fst (handle_keyboard usb h)) = val_y h /\
  last_x (fst (handle_keyboard usb h)) = last_x h /\
  last_y (fst (handle_keyboard usb h)) = last_y h /\
  mouse_en (fst (handle_keyboard usb h)) = mouse_en h.
Proof.
  destruct (handle_keyboard_rest usb h) as (E & _ & _).
  repeat split.
  - apply (f_equal mouse_state) in E. exact E.
  - apply (f_equal joystick_state) in E. exact E.
  - apply (f_equal val_x) in E. exact E.
  - apply (f_equal val_y) in E. exact E.
  - apply (f_equal last_x) in E. exact E.
  - apply (f_equal last_y) in E. exact E.
  - apply (f_equal mouse_en) in E. exact E.
Qed.

(** X7. A mouse call, with or without a tick, changes neither the key table nor
    the joystick mask nor the mouse-enable flag. *)
Theorem handle_mouse_frame (usb : usb_host) (c : Z) (h : HidInput) :
  key_states (fst (handle_mouse usb c h)) = key_states h /\
  joystick_state (fst (handle_mouse usb c h)) = joystick_state h /\
  mouse_en (fst (handle_mouse usb c h)) = mouse_en h.
Proof.
  split; [apply handle_mouse_key_states|].
  unfold handle_mouse.
  pose proof (mouse_loop_keeps
                (fun h' => joystick_state h' = joystick_state h /\
                           mouse_en h' = mouse_en h) usb h) as K.
  destruct (mouse_loop usb (device usb) h) as [h' t]. simpl in K.
  destruct (truthy c); simpl; apply K; auto.
Qed.

Lemma joystick_item_frame (j : Z) (js : list Z) (item : HID_ReportItem_t)
    (h : HidInput) :
  val_x (joystick_item j js item h) = val_x h /\
  val_y (joystick_item j js item h) = val_y h /\
  last_x (joystick_item j js item h) = last_x h /\
  last_y (joystick_item j js item h) = last_y h /\
  mouse_en (joystick_item j js item h) = mouse_en h.
Proof.
  unfold joystick_item.
  repeat match goal with
         | |- context [match ?x with _ => _ end] => destruct x
         end; repeat split.
Qed.

(** X8. A joystick call changes neither the key table nor the pending or
    previous mouse sample nor the mouse-enable flag. *)
Theorem handle_joystick_frame (usb : usb_host) (h : HidInput) :
  key_states (fst (handle_joystick usb h)) = key_states h /\
  val_x (fst (handle_joystick usb h)) = val_x h /\
  val_y (fst (handle_joystick usb h)) = val_y h /\
  last_x (fst (handle_joystick usb h)) = last_x h /\
  last_y (fst (handle_joystick usb h)) = last_y h /\
  mouse_en (fst (handle_joystick usb h)) = mouse_en h.
Proof.
  split; [apply handle_joystick_key_states|].
  unfold handle_joystick.
  apply (joystick_loop_keeps
           (fun h' => val_x h' = val_x h /\ val_y h' = val_y h /\
                      last_x h' = last_x h /\ last_y h' = last_y h /\
                      mouse_en h' = mouse_en h)); [|repeat split].
  intros j js item h' (E1 & E2 & E3 & E4 & E5).
  destruct (joystick_item_frame j js item h') as (F1 & F2 & F3 & F4 & F5).
  repeat split; congruence.
Qed.

Lemma step_mouse_en (o : op) (h : HidInput) :
  mouse_en (fst (step o h)) = mouse_en h.
Proof.
  destruct o as [usb | usb c | usb |]; simpl.
  - destruct (handle_keyboard_rest usb h) as (E & _ & _).
    apply (f_equal mouse_en) in E. exact E.
  - unfold handle_mouse.
    pose proof (mouse_loop_keeps (fun h' => mouse_en h' = mouse_en h) usb h) as K.
    destruct (mouse_loop usb (device usb) h) as [h' t]. simpl in K.
    destruct (truthy c); simpl; apply K; auto.
  - unfold handle_joystick.
    apply (joystick_loop_keeps (fun h' => mouse_en h' = mouse_en h)); [|reflexivity].
    intros j js item h' E. rewrite <- E. apply joystick_item_frame.
  - reflexivity.
Qed.

(** X9. No handler and no reset changes the mouse-enable flag: the value
    [st_mouse_enabled] returns is the same after any sequence of calls. *)
Theorem mouse_enabled_is_constant (ops : list op) (h : HidInput) :
  st_mouse_enabled (fst (run ops h)) = st_mouse_enabled h.
Proof.
  revert h. induction ops as [|o ops IH]; intros h; simpl; [reflexivity|].
  destruct (step o h) as [h1 t1] eqn:E1.
  destruct (run ops h1) as [h2 t2] eqn:E2. simpl.
  specialize (IH h1). rewrite E2 in IH. simpl in IH. rewrite IH.
  unfold st_mouse_enabled, mouse_enabled. f_equal.
  change h1 with (fst (h1, t1)). rewrite <- E1. apply step_mouse_en.
Qed.

(** What a run makes of a constructed object is an object a program can
    hold. *)
Lemma run_reachable (ops : list op) (h : HidInput) :
  reachable h -> reachable (fst (run ops h)).
Proof.
  revert h. induction ops as [|o ops IH]; intros h Hr; simpl; [exact Hr|].
  destruct (step o h) as [h1 t1] eqn:E1.
  destruct (run ops h1) as [h2 t2] eqn:E2. simpl.
  change h2 with (fst (h2, t2)). rewrite <- E2. apply IH.
  change h1 with (fst (h1, t1)). rewrite <- E1. apply reachable_step, Hr.
Qed.

(** X10. A device that is unmounted or busy is left alone: when no device of the
    registry is ready, the keyboard and joystick calls return the object as
    it was and ask for no report, and so does the mouse call except for the
    tick, which hands over the pending sample and clears it. *)
Theorem not_ready_devices_are_left_alone (usb : usb_host) (c : Z) (h : HidInput) :
  Forall (fun d => ready usb (fst d) = false) (device usb) ->
  handle_keyboard usb h = (h, []) /\
  handle_joystick usb h = (h, []) /\
  handle_mouse usb c h =
    (if truthy c then (set_val 0 0 h, [set_speed (val_x h) (val_y h)]) else (h, [])).
Proof.
  intros Hall.
  assert (Hd : forall tp, decoded usb tp = []).
  { intros tp. unfold decoded.
    induction Hall as [|d l Hd _ IH]; simpl; [reflexivity|].
    rewrite Hd, andb_false_r. exact IH. }
  split; [|split].
  - rewrite handle_keyboard_decoded, Hd. reflexivity.
  - unfold handle_joystick. generalize 2.
    induction Hall as [|[addr buf] l Hd' _ IH]; intros j; simpl; [reflexivity|].
    simpl in Hd'. rewrite Hd'.
    destruct (skips usb addr HID_GENERIC); [apply IH|].
    destruct (j - 1 <? 0); [reflexivity | apply IH].
  - apply handle_mouse_none, Hd.
Qed.

End Frames.

(** ** Bytes *)

Section Bytes.

Lemma byte_of_bits (z : Z) :
  (forall i, 8 <= i -> Z.testbit z i = false) -> 0 <= z < 256.
Proof.
  intros Hhigh.
  assert (E : z = Z.land z (Z.ones 8)).
  { apply Z.bits_inj'. intros n Hn.
    rewrite Z.land_spec, Z.testbit_ones_nonneg by lia.
    destruct (Z.ltb_spec n 8) as [Hlt | Hge].
    - rewrite andb_true_r. reflexivity.
    - rewrite Hhigh by lia. reflexivity. }
  rewrite Z.land_ones in E by lia. rewrite E.
  change (2 ^ 8) with 256. apply Z.mod_pos_bound. lia.
Qed.

Lemma bits_of_byte (z i : Z) :
  0 <= z < 256 -> 8 <= i -> Z.testbit z i = false.
Proof.
  intros Hz Hi. rewrite <- (Z.mod_small z (2 ^ 8)) by (change (2 ^ 8) with 256; lia).
  apply Z.mod_pow2_bits_high. lia.
Qed.

End Bytes.

(** ** More on the mouse *)

Section MouseMore.

Context `{Headers} {Mem : Memory}.

(** X11. Motion is handed over once: after a tick, a second tick whose call
    decodes no report hands (0,0) to the sink. *)
Theorem motion_is_delivered_once (usb1 usb2 : usb_host) (c1 c2 : Z)
    (h : HidInput) :
  c1 <> 0 -> c2 <> 0 ->
  decoded usb2 HID_MOUSE = [] ->
  snd (handle_mouse usb2 c2 (fst (handle_mouse usb1 c1 h))) = [set_speed 0 0].
Proof.
  intros H1 H2 Hd. rewrite (handle_mouse_none usb2 _ _ Hd), (truthy_true c2 H2).
  unfold handle_mouse. destruct (mouse_loop usb1 (device usb1) h) as [h' t].
  rewrite (truthy_true c1 H1). reflexivity.
Qed.

(** X12. Once a mouse call has decoded a report, the shared mask fits a byte,
    whatever it held before: the button updates clear every bit above
    bit 7. *)
Theorem mouse_mask_fits_a_byte (usb : usb_host) (c : Z) (h : HidInput) :
  decoded usb HID_MOUSE <> [] ->
  0 <= st_mouse_buttons (fst (handle_mouse usb c h)) < 256.
Proof.
  intros Hne. unfold st_mouse_buttons, mouse_buttons. rewrite handle_mouse_mask.
  destruct (@exists_last _ (decoded usb HID_MOUSE) Hne) as (l' & d & ->).
  rewrite fold_left_app. cbn [fold_left].
  set (a := fold_left (fun h d => mouse_report (snd d) h) l' h).
  change (mouse_state (mouse_report (snd d) a)) with
    (Z.lor (Z.land (Z.lor (Z.land (mouse_state a) 0xfd)
                      (cond (truthy (Z.land (mouse_buttons_of (snd d)) MOUSE_BUTTON_LEFT)) 2 0))
              0xfe)
       (cond (truthy (Z.land (mouse_buttons_of (snd d)) MOUSE_BUTTON_RIGHT)) 1 0)).
  apply byte_of_bits. intros i Hi.
  rewrite Z.lor_spec, Z.land_spec, Z.lor_spec, Z.land_spec.
  rewrite (bits_of_byte 0xfd i), (bits_of_byte 0xfe i) by lia.
  destruct (truthy (Z.land (mouse_buttons_of (snd d)) MOUSE_BUTTON_LEFT)),
           (truthy (Z.land (mouse_buttons_of (snd d)) MOUSE_BUTTON_RIGHT));
    unfold cond; rewrite ?(bits_of_byte 2 i), ?(bits_of_byte 1 i),
                         ?(bits_of_byte 0 i) by lia;
    rewrite ?andb_false_r; reflexivity.
Qed.

Lemma i8_at_range (buf : list Z) (off : nat) :
  Forall (fun b => 0 <= b <= 255) buf -> -128 <= i8_at buf off <= 127.
Proof.
  intros Hb. unfold i8_at, u8_at.
  destruct (buf !! off) as [b|] eqn:E; simpl.
  - apply list_elem_of_lookup_2 in E.
    rewrite Forall_forall in Hb. apply Hb in E.
    destruct (Z.ltb_spec b 128); lia.
  - pose proof (Z.mod_pos_bound (past_the_end buf off) 256 ltac:(lia)) as Hm.
    destruct (Z.ltb_spec (past_the_end buf off mod 256) 128); lia.
Qed.

Lemma glitch_range (v last : Z) :
  -128 <= v <= 127 -> -128 <= glitch v last <= 127.
Proof.
  intros Hv. unfold glitch.
  destruct ((v <? 0) && (45 <? last)); [lia|].
  destruct ((0 <? v) && (last <? -45)); lia.
Qed.

(** X13. A mouse call that decodes a report made of bytes leaves a pending and
    a previous sample between -128 and 127 on both axes, and a tick hands
    the sink values in that range. *)
Theorem mouse_sample_in_int8_range (usb : usb_host) (c : Z) (h : HidInput)
    (d : Z * list Z) (x y : Z) :
  last (decoded usb HID_MOUSE) = Some d ->
  Forall (fun b => 0 <= b <= 255) (snd d) ->
  let h' := fst (handle_mouse usb c h) in
  (-128 <= last_x h' <= 127 /\ -128 <= last_y h' <= 127) /\
  (-128 <= val_x h' <= 127 /\ -128 <= val_y h' <= 127) /\
  (In (set_speed x y) (snd (handle_mouse usb c h)) ->
   -128 <= x <= 127 /\ -128 <= y <= 127).
Proof.
  intros Hd Hb h'. apply last_Some in Hd. destruct Hd as [l' Hd].
  pose proof (glitch_range _ (last_x (fold_left (fun h d => mouse_report (snd d) h) l' h))
                (i8_at_range (snd d) 1 Hb)) as Gx.
  pose proof (glitch_range _ (last_y (fold_left (fun h d => mouse_report (snd d) h) l' h))
                (i8_at_range (snd d) 2 Hb)) as Gy.
  subst h'. unfold handle_mouse. rewrite mouse_loop_decoded, Hd, fold_left_app.
  cbn [fold_left].
  destruct (truthy c); cbn [fst snd]; simpl val_x; simpl val_y; simpl last_x;
    simpl last_y; unfold mouse_x, mouse_y.
  - split; [split; assumption|]. split; [lia|].
    intros Hin. apply in_app_or in Hin. destruct Hin as [Hin | [Hin | []]].
    + apply in_map_iff in Hin. destruct Hin as (? & E & _). discriminate E.
    + injection Hin as <- <-. split; assumption.
  - split; [split; assumption|]. split; [split; assumption|].
    intros Hin. apply in_map_iff in Hin. destruct Hin as (? & E & _). discriminate E.
Qed.

End MouseMore.

(** ** More on the joystick *)

Section JoystickMore.

Context `{Headers} {Mem : Memory}.

(** X14. The joystick call in closed form. Only the first two candidates of the
    registry count: the first is decoded with port counter 1 and the second
    with port counter 0, each only if it is mounted and not busy, and
    nothing is decoded or asked of any later device. *)
Theorem handle_joystick_first_two (usb : usb_host) (h : HidInput) :
  handle_joystick usb h =
  let decode := fun (j : Z) (d : Z * list Z) (h : HidInput) =>
    if ready usb (fst d) then joystick_report usb j (fst d) (snd d) h else h in
  let asked := fun (d : Z * list Z) =>
    if ready usb (fst d) then [tuh_hid_get_report (fst d)] else [] in
  match candidates usb with
  | [] => (h, [])
  | [d1] => (decode 1 d1 h, asked d1)
  | d1 :: d2 :: _ => (decode 0 d2 (decode 1 d1 h), asked d1 ++ asked d2)
  end.
Proof.
  rewrite handle_joystick_candidates.
  pose proof (candidates_not_skipped usb) as Hs.
  destruct (candidates usb) as [|[a1 b1] [|[a2 b2] [|[a3 b3] rest]]]; simpl.
  - reflexivity.
  - pose proof (Hs (a1, b1) ltac:(simpl; auto)) as S1. simpl in S1.
    rewrite S1. simpl. destruct (ready usb a1); reflexivity.
  - pose proof (Hs (a1, b1) ltac:(simpl; auto)) as S1.
    pose proof (Hs (a2, b2) ltac:(simpl; auto)) as S2. simpl in S1, S2.
    rewrite S1, S2. simpl. destruct (ready usb a1), (ready usb a2); reflexivity.
  - pose proof (Hs (a1, b1) ltac:(simpl; auto)) as S1.
    pose proof (Hs (a2, b2) ltac:(simpl; auto)) as S2.
    pose proof (Hs (a3, b3) ltac:(simpl; auto)) as S3. simpl in S1, S2, S3.
    rewrite S1, S2, S3. simpl. destruct (ready usb a1), (ready usb a2); reflexivity.
Qed.

(** What one item can do to the two masks. *)
Lemma joystick_item_masks (j : Z) (js : list Z) (item : HID_ReportItem_t)
    (h : HidInput) :
  (joystick_state (joystick_item j js item h) = joystick_state h /\
   (mouse_state (joystick_item j js item h) = mouse_state h \/
    exists v : bool,
      mouse_state (joystick_item j js item h) =
        Z.lor (Z.land (mouse_state h) 0xfd) (cond v 2 0) \/
      mouse_state (joystick_item j js item h) =
        Z.lor (Z.land (mouse_state h) 0xfe) (cond v 1 0))) \/
  (mouse_state (joystick_item j js item h) = mouse_state h /\
   exists bit value,
     (bit = 0 \/ bit = 2 \/ bit = 4 \/ bit = 6) /\
     joystick_state (joystick_item j js item h) =
       let cleared := Z.land (joystick_state h) (Z.lnot (Z.shiftl 0x3 bit)) in
       if value <? 0x80 then Z.lor cleared (Z.shiftl 1 bit)
       else if 0x80 <? value then Z.lor cleared (Z.shiftl 1 (bit + 1))
       else cleared).
Proof.
  unfold joystick_item.
  destruct (USB_GetHIDReportItemInfo js item) as [value|]; [|left; auto].
  destruct ((Usage_Page item =? USAGE_PAGE_BUTTON) &&
            (ItemType item =? HID_REPORT_ITEM_In)).
  { left. split; [destruct (j =? 0); reflexivity|]. right.
    exists (truthy value). destruct (j =? 0); [left | right]; reflexivity. }
  destruct ((Usage_Page item =? USAGE_PAGE_GENERIC_DCTRL) &&
            ((Usage_Usage item =? USAGE_X) || (Usage_Usage item =? USAGE_Y)) &&
            (ItemType item =? HID_REPORT_ITEM_In)); [|left; auto].
  right. split; [destruct (value <? 0x80), (0x80 <? value); reflexivity|].
  exists (if j =? 1
          then (if Usage_Usage item =? USAGE_X then 2 else 0) + 4
          else (if Usage_Usage item =? USAGE_X then 2 else 0)), value.
  split.
  - destruct (j =? 1), (Usage_Usage item =? USAGE_X); simpl; auto.
  - simpl. destruct (value <? 0x80), (0x80 <? value); reflexivity.
Qed.

(** X15. The joystick mask stays a byte: if it is between 0 and 255 before a
    joystick call it is so after it, and [st_joystick] returns it as it is. *)
Theorem joystick_mask_stays_a_byte (usb : usb_host) (h : HidInput) :
  0 <= joystick_state h < 256 ->
  0 <= joystick_state (fst (handle_joystick usb h)) < 256 /\
  st_joystick (fst (handle_joystick usb h)) =
    joystick_state (fst (handle_joystick usb h)).
Proof.
  intros Hb.
  assert (Hk : 0 <= joystick_state (fst (handle_joystick usb h)) < 256).
  { unfold handle_joystick.
    apply (joystick_loop_keeps (fun h' => 0 <= joystick_state h' < 256));
      [|exact Hb].
    intros j js item h' Hh'.
    destruct (joystick_item_masks j js item h')
      as [[E _] | (_ & bit & value & Hbit & E)]; [rewrite E; exact Hh'|].
    rewrite E. cbv zeta. apply byte_of_bits. intros i Hi.
    pose proof (axis_pair_bits (joystick_state h') bit value i
                  ltac:(lia) ltac:(lia)) as A.
    cbv zeta in A. rewrite A.
    replace (i =? bit) with false by (symmetry; apply Z.eqb_neq; lia).
    replace (i =? bit + 1) with false by (symmetry; apply Z.eqb_neq; lia).
    apply bits_of_byte; [exact Hh' | exact Hi]. }
  split; [exact Hk|].
  unfold st_joystick, joystick. apply Z.mod_small. exact Hk.
Qed.

(** X16. A button item that is in the report drives one bit of the shared mask
    and leaves the rest of its low byte and the joystick mask alone: with
    port counter 0 bit 1 is set exactly when the value is non-zero, with any
    other port counter bit 0 is. *)
Theorem joystick_button_decoding (joystick : Z) (js : list Z)
    (item : HID_ReportItem_t) (h : HidInput) (value i : Z) :
  USB_GetHIDReportItemInfo js item = Some value ->
  Usage_Page item = USAGE_PAGE_BUTTON ->
  ItemType item = HID_REPORT_ITEM_In ->
  0 <= i <= 7 ->
  let h' := joystick_item joystick js item h in
  let b := if joystick =? 0 then 1 else 0 in
  (Z.testbit (mouse_state h') b = true <-> value <> 0) /\
  (i <> b -> Z.testbit (mouse_state h') i = Z.testbit (mouse_state h) i) /\
  joystick_state h' = joystick_state h.
Proof.
  intros Hget Hpage Htype Hi h' b. subst h' b. unfold joystick_item.
  rewrite Hget, Hpage, Htype, !Z.eqb_refl. cbn [andb].
  assert (Hcases : i = 0 \/ i = 1 \/ i = 2 \/ i = 3 \/ i = 4 \/ i = 5 \/
                   i = 6 \/ i = 7) by lia.
  destruct (joystick =? 0); cbn [mouse_state joystick_state set_mouse_state];
    (split; [|split; [|reflexivity]]).
  - rewrite Z.lor_spec, Z.land_spec. simpl Z.testbit at 2.
    rewrite andb_false_r, <- truthy_iff. simpl.
    destruct (truthy value); simpl; split; congruence.
  - intros Hne. rewrite Z.lor_spec, Z.land_spec.
    destruct Hcases as [-> | [-> | [-> | [-> | [-> | [-> | [-> | ->]]]]]]];
      try lia; destruct (truthy value); simpl;
      rewrite ?andb_true_r, ?orb_false_r; reflexivity.
  - rewrite Z.lor_spec, Z.land_spec. simpl Z.testbit at 2.
    rewrite andb_false_r, <- truthy_iff. simpl.
    destruct (truthy value); simpl; split; congruence.
  - intros Hne. rewrite Z.lor_spec, Z.land_spec.
    destruct Hcases as [-> | [-> | [-> | [-> | [-> | [-> | [-> | ->]]]]]]];
      try lia; destruct (truthy value); simpl;
      rewrite ?andb_true_r, ?orb_false_r; reflexivity.
Qed.

End JoystickMore.

(** ** The device registry *)

Section Registry.

Context `{Headers} {Mem : Memory}.

Variable sizeof_hid_keyboard_report_t : nat.
Variable sizeof_hid_mouse_report_t : nat.
Variable tuh_hid_get_report_size : Z -> nat.

Local Abbreviation mounted_cb :=
  (tuh_hid_mounted_cb sizeof_hid_keyboard_report_t sizeof_hid_mouse_report_t
     tuh_hid_get_report_size).
Local Abbreviation reachable_registry :=
  (registry_reachable sizeof_hid_keyboard_report_t sizeof_hid_mouse_report_t
     tuh_hid_get_report_size).

Lemma mounted_cb_cases (usb : usb_host) (p : nat) (a : Z) (r : registry) :
  fst (mounted_cb usb p a r) = r \/
  exists n, fst (mounted_cb usb p a r) =
            {| reg_device := <[a := p]> (reg_device r);
               reg_heap := <[p := n]> (reg_heap r) |}.
Proof.
  unfold tuh_hid_mounted_cb.
  destruct (classify (tuh_hid_get_type usb a)); [right; eexists | left]; reflexivity.
Qed.

Lemma unmounted_cb_cases (usb : usb_host) (a : Z) (r r' : registry)
    (t : list cb_event) :
  tuh_hid_unmounted_cb usb a r = Some (r', t) ->
  (reg_device r !! a = None /\ r' = r) \/
  exists p, reg_device r !! a = Some p /\ is_Some (reg_heap r !! p) /\
            r' = {| reg_device := delete a (reg_device r);
                    reg_heap := delete p (reg_heap r) |}.
Proof.
  unfold tuh_hid_unmounted_cb. intros E.
  destruct (reg_device r !! a) as [p|]; [|left; split; congruence].
  destruct (reg_heap r !! p) as [n|] eqn:Ep; [|discriminate].
  right. exists p. rewrite Ep. repeat split; eauto. congruence.
Qed.

Lemma mount_keeps_ok (usb : usb_host) (p : nat) (a : Z) (r : registry) :
  registry_ok r -> reg_heap r !! p = None ->
  registry_ok (fst (mounted_cb usb p a r)).
Proof.
  intros [Hlive Hinj] Hp.
  destruct (mounted_cb_cases usb p a r) as [-> | [n ->]]; [split; assumption|].
  split; simpl.
  - intros a' p' E. apply lookup_insert_Some in E.
    destruct E as [[<- <-] | [Hne E]].
    + rewrite lookup_insert_eq. eauto.
    + apply lookup_insert_is_Some. right.
      destruct (Hlive _ _ E) as [x Hx]. split; [congruence | eauto].
  - intros a1 a2 q E1 E2.
    apply lookup_insert_Some in E1. apply lookup_insert_Some in E2.
    destruct E1 as [[<- <-] | [N1 E1]], E2 as [[<- E2] | [N2 E2]];
      try reflexivity.
    + destruct (Hlive _ _ E2) as [x Hx]. congruence.
    + subst q. destruct (Hlive _ _ E1) as [x Hx]. congruence.
    + eapply Hinj; eassumption.
Qed.

Lemma unmount_keeps_ok (usb : usb_host) (a : Z) (r r' : registry)
    (t : list cb_event) :
  registry_ok r -> tuh_hid_unmounted_cb usb a r = Some (r', t) ->
  registry_ok r'.
Proof.
  intros [Hlive Hinj] E.
  destruct (unmounted_cb_cases _ _ _ _ _ E) as [[_ ->] | (p & Ea & _ & ->)];
    [split; assumption|].
  split; simpl.
  - intros a' p' E'. apply lookup_delete_Some in E'. destruct E' as [Hne E'].
    rewrite lookup_delete_ne; [eapply Hlive, E'|].
    intros ->. apply Hne. eapply Hinj; eassumption.
  - intros a1 a2 q E1 E2.
    apply lookup_delete_Some in E1. apply lookup_delete_Some in E2.
    eapply Hinj; [apply E1 | apply E2].
Qed.

Lemma registry_reachable_ok (r : registry) :
  reachable_registry r -> registry_ok r.
Proof.
  induction 1 as [| usb p a r Hr IH Hp | usb a r r' t Hr IH E].
  - split; simpl; [intros a p E | intros a1 a2 p E _];
      rewrite lookup_empty in E; discriminate E.
  - apply mount_keeps_ok; assumption.
  - eapply unmount_keeps_ok; eassumption.
Qed.

(** X17. Whatever sequence of mounts and unmounts built the registry, every
    registered address points to an array that is still allocated, and no
    other address points to the same array. *)
Theorem registry_has_no_dangling_buffer (r : registry) (a : Z) (p : nat) :
  reachable_registry r ->
  reg_device r !! a = Some p ->
  is_Some (reg_heap r !! p) /\
  forall a', reg_device r !! a' = Some p -> a' = a.
Proof.
  intros Hr Ha. apply registry_reachable_ok in Hr. destruct Hr as [Hlive Hinj].
  split; [eapply Hlive, Ha|]. intros a' Ha'. eapply Hinj; eassumption.
Qed.

(** X18. The unmount callback never deletes an array that is not allocated: on
    every registry the callbacks can build, it succeeds, for a registered
    address and for an unknown one. *)
Theorem unmount_never_frees_twice (usb : usb_host) (a : Z) (r : registry) :
  reachable_registry r ->
  exists r' t, tuh_hid_unmounted_cb usb a r = Some (r', t) /\
               reg_device r' !! a = None /\
               forall a', a' <> a -> reg_device r' !! a' = reg_device r !! a'.
Proof.
  intros Hr. apply registry_reachable_ok in Hr. destruct Hr as [Hlive _].
  unfold tuh_hid_unmounted_cb.
  destruct (reg_device r !! a) as [p|] eqn:Ea.
  - destruct (Hlive _ _ Ea) as [n Hn]. rewrite Hn.
    eexists _, _. split; [reflexivity|]. simpl. split.
    + apply lookup_delete_eq.
    + intros a' Hne. apply lookup_delete_ne. congruence.
  - eexists _, _. split; [reflexivity|]. split; [exact Ea | reflexivity].
Qed.

(** X19. Mounting a device at an unregistered address and unmounting it again
    gives back the registry and the set of allocated arrays as they were. *)
Theorem mount_then_unmount_restores (usb usb' : usb_host) (p : nat) (a : Z)
    (r : registry) :
  reg_device r !! a = None ->
  reg_heap r !! p = None ->
  exists t, tuh_hid_unmounted_cb usb' a (fst (mounted_cb usb p a r)) = Some (r, t).
Proof.
  intros Ha Hp. unfold tuh_hid_mounted_cb, tuh_hid_unmounted_cb.
  destruct (classify (tuh_hid_get_type usb a)) as [k|]; simpl.
  - rewrite !lookup_insert_eq, !delete_insert_id by assumption.
    destruct r. eexists. reflexivity.
  - rewrite Ha. eexists. reflexivity.
Qed.

(** X20. A device of a known type mounted at an address that is already
    registered replaces the entry without deleting the old array: the old
    array stays allocated, no address points to it any more, and unmounting
    the address afterwards still leaves it allocated. *)
Theorem remount_leaks_the_old_buffer (usb usb' : usb_host) (p q : nat) (a : Z)
    (r r2 : registry) (t : list cb_event) :
  reachable_registry r ->
  reg_device r !! a = Some q ->
  reg_heap r !! p = None ->
  classify (tuh_hid_get_type usb a) <> None ->
  tuh_hid_unmounted_cb usb' a (fst (mounted_cb usb p a r)) = Some (r2, t) ->
  let r1 := fst (mounted_cb usb p a r) in
  (is_Some (reg_heap r1 !! q) /\ forall a', reg_device r1 !! a' <> Some q) /\
  (is_Some (reg_heap r2 !! q) /\ forall a', reg_device r2 !! a' <> Some q).
Proof.
  intros Hr Ha Hp Hk E r1.
  apply registry_reachable_ok in Hr. destruct Hr as [Hlive Hinj].
  destruct (Hlive _ _ Ha) as [n Hn].
  assert (Hqp : q <> p) by congruence.
  subst r1. revert E. unfold tuh_hid_mounted_cb, tuh_hid_unmounted_cb.
  destruct (classify (tuh_hid_get_type usb a)) as [k|]; [|contradiction]. simpl.
  rewrite !lookup_insert_eq. intros E. injection E as <- _. simpl.
  assert (Hnone : forall a', <[a := p]> (reg_device r) !! a' <> Some q).
  { intros a' E'. apply lookup_insert_Some in E'.
    destruct E' as [[_ E'] | [Hne E']]; [congruence|].
    apply Hne. eapply Hinj; eassumption. }
  repeat split.
  - rewrite lookup_insert_ne by congruence. eauto.
  - exact Hnone.
  - rewrite lookup_delete_ne, lookup_insert_ne by congruence. eauto.
  - intros a' E'. apply lookup_delete_Some in E'. destruct E' as [_ E'].
    eapply Hnone, E'.
Qed.

(** X21. Used as the host layer uses it, a mount only for an address that is
    not registered, the callbacks leak nothing: if every allocated array is
    registered before a callback, every allocated array is registered after
    it. *)
Theorem callbacks_keep_registry_tight (usb : usb_host) (p : nat) (a : Z)
    (r : registry) :
  registry_tight r ->
  (reg_device r !! a = None -> reg_heap r !! p = None ->
   registry_tight (fst (mounted_cb usb p a r))) /\
  (forall r' t, tuh_hid_unmounted_cb usb a r = Some (r', t) -> registry_tight r').
Proof.
  intros Ht. split.
  - intros Ha Hp.
    destruct (mounted_cb_cases usb p a r) as [-> | [n ->]]; [exact Ht|].
    intros p' Hp'. simpl in *. apply lookup_insert_is_Some in Hp'.
    destruct Hp' as [<- | [Hne Hp']].
    + exists a. apply lookup_insert_eq.
    + destruct (Ht _ Hp') as [a0 Ha0]. exists a0.
      rewrite lookup_insert_ne; [exact Ha0 | congruence].
  - intros r' t E.
    destruct (unmounted_cb_cases _ _ _ _ _ E) as [[_ ->] | (q & Ea & _ & ->)];
      [exact Ht|].
    intros p' Hp'. simpl in *. apply lookup_delete_is_Some in Hp'.
    destruct Hp' as [Hne Hp']. destruct (Ht _ Hp') as [a0 Ha0]. exists a0.
    rewrite lookup_delete_ne; [exact Ha0 | congruence].
Qed.

End Registry.

(** ** The guard and the type of the device at hand *)

Section Guard.

Context `{Headers} {Mem : Memory}.

Lemma skips_retyped (types : Z -> Z) (usb : usb_host) (addr tp : Z) :
  types 0 = tuh_hid_get_type usb 0 ->
  types 1 = tuh_hid_get_type usb 1 ->
  skips (retyped types usb) addr tp = skips usb addr tp.
Proof.
  intros H0 H1. rewrite !guard_reads_address_0_or_1. simpl.
  destruct (addr =? tp); congruence.
Qed.

(** X22. No handler looks at the type of the device it is about to decode: two
    hosts that agree on everything but the types they report for addresses
    other than 0 and 1 get the same result from the keyboard, the mouse and
    the joystick call. *)
Theorem handlers_ignore_device_types (types : Z -> Z) (usb : usb_host) (c : Z)
    (h : HidInput) :
  types 0 = tuh_hid_get_type usb 0 ->
  types 1 = tuh_hid_get_type usb 1 ->
  handle_keyboard (retyped types usb) h = handle_keyboard usb h /\
  handle_mouse (retyped types usb) c h = handle_mouse usb c h /\
  handle_joystick (retyped types usb) h = handle_joystick usb h.
Proof.
  intros H0 H1.
  assert (Hd : forall tp, decoded (retyped types usb) tp = decoded usb tp).
  { intros tp. unfold decoded. simpl. apply filter_ext. intros d.
    rewrite skips_retyped by assumption. reflexivity. }
  split; [|split].
  - rewrite !handle_keyboard_decoded, Hd. reflexivity.
  - unfold handle_mouse. rewrite !mouse_loop_decoded, Hd. reflexivity.
  - unfold handle_joystick. simpl device. generalize 2. revert h.
    induction (device usb) as [|[addr buf] devs IH]; intros h j; simpl;
      [reflexivity|].
    rewrite skips_retyped by assumption.
    destruct (skips usb addr HID_GENERIC); [apply IH|].
    destruct (j - 1 <? 0); [reflexivity|].
    change (ready (retyped types usb) addr) with (ready usb addr).
    destruct (ready usb addr); [|apply IH].
    change (joystick_report (retyped types usb) (j - 1) addr buf h)
      with (joystick_report usb (j - 1) addr buf h).
    rewrite IH. reflexivity.
Qed.

End Guard.

(** ** The further theorems on the sample instances *)

Section OnSamples2.

#[local] Existing Instance Sample.headers.
#[local] Existing Instance Sample.memory.

Import Sample Sample2.

Lemma key_slot_down_iff_witness :
  keydown (fst (handle_keyboard (open_host [(4, kb_chord)] no_info) fresh)) 48
  = Some 1.
Proof.
  assert (Hmod : ~ In 48 [ATARI_LSHIFT; ATARI_RSHIFT; ATARI_CTRL; ATARI_ALT])
    by (simpl; intros [E | [E | [E | [E | []]]]]; discriminate E).
  destruct (key_slot_down_iff (open_host [(4, kb_chord)] no_info) fresh
              (4, kb_chord) 48 (reachable_ctor raw) eq_refl ltac:(simpl; lia)
              ltac:(lia) Hmod)
    as [[_ Down] _].
  apply Down. exists 1%nat. split; [lia|]. split; [split|]; reflexivity.
Defined.

Lemma modifier_slots_follow_bits_witness :
  keydown (fst (handle_keyboard (open_host [(4, kb_chord)] no_info) fresh))
    ATARI_LSHIFT = Some 1 /\
  keydown (fst (handle_keyboard (open_host [(4, kb_chord)] no_info) fresh))
    ATARI_RSHIFT = Some 0 /\
  keydown (fst (handle_keyboard (open_host [(4, kb_chord)] no_info) fresh))
    ATARI_CTRL = Some 1.
Proof.
  destruct (modifier_slots_follow_bits (open_host [(4, kb_chord)] no_info) fresh
              (4, kb_chord) (reachable_ctor raw) eq_refl) as (A & B & C & _).
  split; [exact A | split; [exact B | exact C]].
Defined.

Lemma keyboard_last_call_wins_witness :
  handle_keyboard (open_host [(4, kb_none)] no_info)
    (fst (handle_keyboard (open_host [(4, kb_a)] no_info) fresh))
  = handle_keyboard (open_host [(4, kb_none)] no_info) fresh.
Proof.
  apply keyboard_last_call_wins. vm_compute. discriminate.
Defined.

Lemma keydown_is_boolean_witness :
  st_keydown
    (fst (run [op_keyboard (open_host [(4, kb_chord)] no_info);
               op_mouse (open_host [(4, mouse_4_1)] no_info) 1] fresh)) 30 = Some 0 \/
  st_keydown
    (fst (run [op_keyboard (open_host [(4, kb_chord)] no_info);
               op_mouse (open_host [(4, mouse_4_1)] no_info) 1] fresh)) 30 = Some 1.
Proof.
  apply keydown_is_boolean; [|lia].
  apply run_reachable, reachable_ctor.
Defined.

Lemma not_ready_devices_are_left_alone_witness :
  handle_keyboard (busy_host [(4, kb_a)]) fresh = (fresh, []) /\
  handle_joystick (busy_host [(4, kb_a)]) fresh = (fresh, []).
Proof.
  destruct (not_ready_devices_are_left_alone (busy_host [(4, kb_a)]) 0 fresh)
    as (K & J & _).
  - constructor; [reflexivity | constructor].
  - split; [exact K | exact J].
Defined.

Lemma motion_is_delivered_once_witness :
  snd (handle_mouse (open_host [] no_info) 1
         (fst (handle_mouse (open_host [(4, mouse_4_1)] no_info) 1 fresh)))
  = [set_speed 0 0].
Proof.
  apply motion_is_delivered_once; [lia | lia | reflexivity].
Defined.

Lemma mouse_mask_fits_a_byte_witness :
  0 <= st_mouse_buttons
         (fst (handle_mouse (open_host [(4, mouse_m5_3_left)] no_info) 0
                 (set_mouse_state (-1) fresh))) < 256.
Proof.
  apply mouse_mask_fits_a_byte. vm_compute. discriminate.
Defined.

Lemma mouse_sample_in_int8_range_witness :
  -128 <= last_x (fst (handle_mouse (open_host [(4, mouse_m5_3_left)] no_info) 1
                         moving)) <= 127 /\
  -128 <= last_y (fst (handle_mouse (open_host [(4, mouse_m5_3_left)] no_info) 1
                         moving)) <= 127.
Proof.
  refine (proj1
    (mouse_sample_in_int8_range (open_host [(4, mouse_m5_3_left)] no_info) 1
       moving (4, mouse_m5_3_left) 127 (-127) eq_refl _)).
  repeat constructor; simpl; lia.
Defined.

Lemma joystick_mask_stays_a_byte_witness :
  0 <= joystick_state (fst (handle_joystick four_pads fresh)) < 256.
Proof.
  refine (proj1 (joystick_mask_stays_a_byte four_pads fresh _)).
  simpl. lia.
Defined.

Lemma joystick_button_decoding_witness :
  Z.testbit (mouse_state (joystick_item 0 [0; 0; 0; 0; 1; 0] button_1 fresh)) 1
  = true.
Proof.
  refine (proj2 (proj1
    (joystick_button_decoding 0 [0; 0; 0; 0; 1; 0] button_1 fresh 1 5
       eq_refl eq_refl eq_refl _)) _); lia.
Defined.

Lemma registry_has_no_dangling_buffer_witness :
  is_Some
    (reg_heap (fst (tuh_hid_mounted_cb 8 5 (fun _ => 4%nat) typed_host 0 1
                      empty_registry)) !! 0%nat).
Proof.
  refine (proj1
    (registry_has_no_dangling_buffer 8 5 (fun _ => 4%nat)
       (fst (tuh_hid_mounted_cb 8 5 (fun _ => 4%nat) typed_host 0 1 empty_registry))
       1 0%nat _ eq_refl)).
  apply registry_mount; [apply registry_start | reflexivity].
Defined.

Lemma unmount_never_frees_twice_witness :
  exists r' t,
    tuh_hid_unmounted_cb typed_host 1
      (fst (tuh_hid_mounted_cb 8 5 (fun _ => 4%nat) typed_host 0 1 empty_registry))
    = Some (r', t) /\
    reg_device r' !! 1 = None /\
    forall a', a' <> 1 ->
      reg_device r' !! a' =
      reg_device (fst (tuh_hid_mounted_cb 8 5 (fun _ => 4%nat) typed_host 0 1
                         empty_registry)) !! a'.
Proof.
  apply (unmount_never_frees_twice 8 5 (fun _ => 4%nat)).
  apply registry_mount; [apply registry_start | reflexivity].
Defined.

Lemma mount_then_unmount_restores_witness :
  exists t,
    tuh_hid_unmounted_cb typed_host 1
      (fst (tuh_hid_mounted_cb 8 5 (fun _ => 4%nat) typed_host 0 1 empty_registry))
    = Some (empty_registry, t).
Proof.
  apply mount_then_unmount_restores; reflexivity.
Defined.

Lemma remount_leaks_the_old_buffer_witness :
  is_Some
    (reg_heap
       (fst (tuh_hid_mounted_cb 8 5 (fun _ => 4%nat) typed_host 1 1
               (fst (tuh_hid_mounted_cb 8 5 (fun _ => 4%nat) typed_host 0 1
                       empty_registry)))) !! 0%nat) /\
  forall a',
    reg_device
      (fst (tuh_hid_mounted_cb 8 5 (fun _ => 4%nat) typed_host 1 1
              (fst (tuh_hid_mounted_cb 8 5 (fun _ => 4%nat) typed_host 0 1
                      empty_registry)))) !! a' <> Some 0%nat.
Proof.
  refine (proj1
    (remount_leaks_the_old_buffer 8 5 (fun _ => 4%nat) typed_host typed_host
       1%nat 0%nat 1
       (fst (tuh_hid_mounted_cb 8 5 (fun _ => 4%nat) typed_host 0 1 empty_registry))
       {| reg_device := delete 1 (<[1 := 1%nat]> (<[1 := 0%nat]> ∅));
          reg_heap := delete 1%nat (<[1%nat := 8%nat]> (<[0%nat := 8%nat]> ∅)) |}
       [printed kind_keyboard false 1] _ eq_refl eq_refl _ eq_refl)).
  - apply registry_mount; [apply registry_start | reflexivity].
  - vm_compute. discriminate.
Defined.

Lemma callbacks_keep_registry_tight_witness :
  registry_tight (fst (tuh_hid_mounted_cb 8 5 (fun _ => 4%nat) typed_host 0 1
                         empty_registry)).
Proof.
  refine (proj1
    (callbacks_keep_registry_tight 8 5 (fun _ => 4%nat) typed_host 0 1
       empty_registry _) eq_refl eq_refl).
  intros p [x Hx]. simpl in Hx. rewrite lookup_empty in Hx. discriminate Hx.
Defined.

Lemma handlers_ignore_device_types_witness :
  handle_joystick (retyped (fun a => if a <? 2 then 0 else 2) hub_kb_pad) fresh
  = handle_joystick hub_kb_pad fresh.
Proof.
  refine (proj2 (proj2
    (handlers_ignore_device_types (fun a => if a <? 2 then 0 else 2) hub_kb_pad 0
       fresh eq_refl eq_refl))).
Defined.

End OnSamples2.

(** ** Key order, resets and construction *)

Section KeyboardOrder.

Context `{Headers} {Mem : Memory}.

Lemma key_is_down_codes (kb : list Z) (n : nat) :
  key_is_down (st_keys kb) n = true <->
  exists c, In c (kb_codes kb) /\
            (if (0 <? c) && (c <? 128) then st_key_lookup_hid_gb c else 0) = Z.of_nat n.
Proof.
  rewrite key_is_down_iff. unfold kb_codes, st_key_of. split.
  - intros (i & Hi & E). exists (kb_keycode kb i). split; [|exact E].
    apply in_map_iff. exists i. split; [reflexivity|]. apply in_seq. lia.
  - intros (c & Hin & E). apply in_map_iff in Hin. destruct Hin as (i & <- & Hi).
    apply in_seq in Hi. exists i. split; [lia | exact E].
Qed.

Lemma update_keys_ext (keys1 keys2 ks : list Z) :
  (forall n, key_is_down keys1 n = key_is_down keys2 n) ->
  update_keys keys1 ks = update_keys keys2 ks.
Proof.
  intros Hext. apply list_eq. intros i. unfold update_keys.
  rewrite !lookup_fold_insert, Hext. reflexivity.
Qed.

(** The six codes of a buffer that holds a whole keyboard report are bytes
    2 to 7 of the array, whatever the memory behind it holds. *)
Lemma kb_codes_inside (kb : list Z) :
  (8 <= length kb)%nat -> kb_codes kb = take 6 (drop 2 kb).
Proof.
  intros Hlen. do 8 (destruct kb as [|? kb]; [simpl in Hlen; lia|]).
  reflexivity.
Qed.

(** X23. The key table depends on which codes a report holds, not on the slots
    they sit in nor on how often they occur: two buffers that each hold a
    whole keyboard report, with the same modifier byte and the same set of
    key codes, give the same object. *)
Theorem key_order_does_not_matter (kb1 kb2 : list Z) (h : HidInput) :
  (8 <= length kb1)%nat -> (8 <= length kb2)%nat ->
  kb_modifier kb1 = kb_modifier kb2 ->
  (forall c, In c (kb_codes kb1) <-> In c (kb_codes kb2)) ->
  keyboard_report kb1 h = keyboard_report kb2 h.
Proof.
  intros _ _ Hm Hc. unfold keyboard_report. rewrite Hm. f_equal. f_equal.
  apply update_keys_ext. intros n. apply eq_true_iff_eq.
  rewrite !key_is_down_codes.
  split; intros (c & Hin & E); exists c; (split; [apply Hc, Hin | exact E]).
Qed.

(** X24. A reset does not outlast the next keyboard poll: a keyboard call that
    decodes a report gives the same result on the reset object as on the
    object before the reset, so a key held across a reset reads down
    again. *)
Theorem keyboard_poll_undoes_reset (usb : usb_host) (h : HidInput) :
  reachable h ->
  decoded usb HID_KEYBOARD <> [] ->
  handle_keyboard usb (reset h) = handle_keyboard usb h.
Proof.
  intros Hr Hne. destruct (reachable_table_ok h Hr) as [Hlen H0].
  rewrite !handle_keyboard_decoded. f_equal.
  apply keyboard_fold_forgets; [exact Hne | reflexivity | |].
  - simpl. apply length_fill0.
  - simpl. rewrite H0. apply lookup_fill0. lia.
Qed.

(** X25. After construction no key is down, whatever the members held before
    the constructor ran. *)
Theorem no_key_down_after_construction (h0 : HidInput) (code : Z) :
  0 <= code -> st_keydown (HidInput_ctor h0) code = Some 0.
Proof.
  intros Hc. unfold st_keydown.
  destruct (Z.lt_ge_cases code 128) as [Hlt | Hge].
  - rewrite keydown_lookup by lia. simpl.
    apply lookup_fill0. rewrite length_resize. lia.
  - unfold keydown. destruct (code <? 128) eqn:E; [lia | reflexivity].
Qed.

End KeyboardOrder.

(** ** Decoding the same report again *)

Section Redecode.

Context `{Headers} {Mem : Memory}.

Lemma glitch_stable (v last : Z) : glitch v (glitch v last) = glitch v last.
Proof.
  unfold glitch.
  destruct (Z.ltb_spec v 0), (Z.ltb_spec 45 last), (Z.ltb_spec 0 v),
           (Z.ltb_spec last (-45)); simpl;
    repeat match goal with
           | |- context [?a <? ?b] => destruct (Z.ltb_spec a b)
           end; simpl; try reflexivity; lia.
Qed.

(** Two masked updates in a row, done twice, are the same as done once. *)
Lemma two_updates_stable (x a l b r : Z) :
  Z.lor (Z.land (Z.lor (Z.land
    (Z.lor (Z.land (Z.lor (Z.land x a) l) b) r) a) l) b) r =
  Z.lor (Z.land (Z.lor (Z.land x a) l) b) r.
Proof.
  apply Z.bits_inj'. intros n _.
  repeat (rewrite Z.lor_spec || rewrite Z.land_spec).
  destruct (Z.testbit x n), (Z.testbit a n), (Z.testbit l n),
           (Z.testbit b n), (Z.testbit r n); reflexivity.
Qed.

(** One decoded mouse report, field by field. *)
Lemma mouse_report_fields (m : list Z) (h : HidInput) :
  mouse_report m h =
  {| key_states := key_states h;
     mouse_state :=
       Z.lor (Z.land (Z.lor (Z.land (mouse_state h) 0xfd)
                        (cond (truthy (Z.land (mouse_buttons_of m) MOUSE_BUTTON_LEFT)) 2 0))
                0xfe)
         (cond (truthy (Z.land (mouse_buttons_of m) MOUSE_BUTTON_RIGHT)) 1 0);
     joystick_state := joystick_state h;
     val_x := glitch (mouse_x m) (last_x h);
     val_y := glitch (mouse_y m) (last_y h);
     last_x := glitch (mouse_x m) (last_x h);
     last_y := glitch (mouse_y m) (last_y h);
     mouse_en := mouse_en h |}.
Proof. reflexivity. Qed.

(** X26. Decoding one mouse report a second time changes nothing: the
    wrap-around guess settles on the value it chose the first time. *)
Theorem mouse_redecode_is_stable (usb : usb_host) (c : Z) (h : HidInput)
    (d : Z * list Z) :
  decoded usb HID_MOUSE = [d] ->
  fst (handle_mouse usb 0 (fst (handle_mouse usb 0 h))) = fst (handle_mouse usb 0 h) /\
  handle_mouse usb c (fst (handle_mouse usb 0 h)) = handle_mouse usb c h.
Proof.
  intros Hd.
  assert (E : mouse_report (snd d) (mouse_report (snd d) h) = mouse_report (snd d) h).
  { rewrite (mouse_report_fields (snd d) (mouse_report (snd d) h)).
    rewrite (mouse_report_fields (snd d) h).
    cbn [key_states mouse_state joystick_state val_x val_y last_x last_y mouse_en].
    rewrite !glitch_stable, two_updates_stable. reflexivity. }
  assert (H0 : forall h', handle_mouse usb 0 h' =
                          (mouse_report (snd d) h', [tuh_hid_get_report (fst d)])).
  { intros h'. rewrite (handle_mouse_one usb 0 h' d Hd). reflexivity. }
  rewrite !H0. cbn [fst]. split; [exact E|].
  rewrite (handle_mouse_one usb c (mouse_report (snd d) h) d Hd).
  rewrite (handle_mouse_one usb c h d Hd), E. reflexivity.
Qed.

End Redecode.

(** ** Polling the joysticks again *)

Section JoystickAgain.

Context `{Headers} {Mem : Memory}.

Lemma overwrite_stable (x k s : Z) :
  Z.lor (Z.land (Z.lor (Z.land x k) s) k) s = Z.lor (Z.land x k) s.
Proof.
  apply Z.bits_inj'. intros n _.
  repeat (rewrite Z.lor_spec || rewrite Z.land_spec).
  destruct (Z.testbit x n), (Z.testbit k n), (Z.testbit s n); reflexivity.
Qed.

Lemma overwrite_compose (x k1 s1 k2 s2 : Z) :
  Z.lor (Z.land (Z.lor (Z.land x k1) s1) k2) s2 =
  Z.lor (Z.land x (Z.land k1 k2)) (Z.lor (Z.land s1 k2) s2).
Proof.
  apply Z.bits_inj'. intros n _.
  repeat (rewrite Z.lor_spec || rewrite Z.land_spec).
  destruct (Z.testbit x n), (Z.testbit k1 n), (Z.testbit s1 n),
           (Z.testbit k2 n), (Z.testbit s2 n); reflexivity.
Qed.

Lemma masked_update_id (h : HidInput) : masked_update (-1) 0 (-1) 0 h = h.
Proof.
  destruct h. unfold masked_update, set_joystick_state, set_mouse_state. simpl.
  rewrite !Z.lor_0_r, !Z.land_m1_r. reflexivity.
Qed.

Lemma masked_update_compose (km1 sm1 kj1 sj1 km2 sm2 kj2 sj2 : Z) (h : HidInput) :
  masked_update km2 sm2 kj2 sj2 (masked_update km1 sm1 kj1 sj1 h) =
  masked_update (Z.land km1 km2) (Z.lor (Z.land sm1 km2) sm2)
                (Z.land kj1 kj2) (Z.lor (Z.land sj1 kj2) sj2) h.
Proof.
  destruct h. unfold masked_update, set_joystick_state, set_mouse_state. simpl.
  rewrite !overwrite_compose. reflexivity.
Qed.

Lemma masked_update_stable (km sm kj sj : Z) (h : HidInput) :
  masked_update km sm kj sj (masked_update km sm kj sj h) =
  masked_update km sm kj sj h.
Proof.
  destruct h. unfold masked_update, set_joystick_state, set_mouse_state. simpl.
  rewrite !overwrite_stable. reflexivity.
Qed.

(** Every item is a masked update whose masks do not depend on the
    object. *)
Lemma joystick_item_masked (j : Z) (js : list Z) (item : HID_ReportItem_t) :
  exists km sm kj sj,
    forall h, joystick_item j js item h = masked_update km sm kj sj h.
Proof.
  unfold joystick_item.
  destruct (USB_GetHIDReportItemInfo js item) as [value|];
    [|exists (-1), 0, (-1), 0; intros h; symmetry; apply masked_update_id].
  destruct ((Usage_Page item =? USAGE_PAGE_BUTTON) &&
            (ItemType item =? HID_REPORT_ITEM_In)).
  { destruct (j =? 0).
    - exists 0xfd, (cond (truthy value) 2 0), (-1), 0. intros [ks ms jy vx vy lx ly en].
      unfold masked_update, set_joystick_state, set_mouse_state. simpl.
      rewrite Z.lor_0_r, Z.land_m1_r. reflexivity.
    - exists 0xfe, (cond (truthy value) 1 0), (-1), 0. intros [ks ms jy vx vy lx ly en].
      unfold masked_update, set_joystick_state, set_mouse_state. simpl.
      rewrite Z.lor_0_r, Z.land_m1_r. reflexivity. }
  destruct ((Usage_Page item =? USAGE_PAGE_GENERIC_DCTRL) &&
            ((Usage_Usage item =? USAGE_X) || (Usage_Usage item =? USAGE_Y)) &&
            (ItemType item =? HID_REPORT_ITEM_In));
    [|exists (-1), 0, (-1), 0; intros h; symmetry; apply masked_update_id].
  set (bit := if j =? 1
              then (if Usage_Usage item =? USAGE_X then 2 else 0) + 4
              else (if Usage_Usage item =? USAGE_X then 2 else 0)).
  exists (-1), 0, (Z.lnot (Z.shiftl 0x3 bit)),
    (if value <? 0x80 then Z.shiftl 1 bit
     else if 0x80 <? value then Z.shiftl 1 (bit + 1) else 0).
  intros [ks ms jy vx vy lx ly en].
  unfold masked_update, set_joystick_state, set_mouse_state.
  cbn [key_states mouse_state joystick_state val_x val_y last_x last_y mouse_en].
  rewrite Z.lor_0_r, Z.land_m1_r.
  destruct (value <? 0x80), (0x80 <? value);
    cbn [key_states mouse_state joystick_state val_x val_y last_x last_y mouse_en];
    rewrite ?Z.lor_0_r; reflexivity.
Qed.

Lemma joystick_items_masked (j : Z) (js : list Z) (info : list HID_ReportItem_t) :
  exists km sm kj sj,
    forall h, fold_left (fun h item => joystick_item j js item h) info h =
              masked_update km sm kj sj h.
Proof.
  induction info as [|item info IH].
  - exists (-1), 0, (-1), 0. intros h. symmetry. apply masked_update_id.
  - destruct (joystick_item_masked j js item) as (km1 & sm1 & kj1 & sj1 & E1).
    destruct IH as (km2 & sm2 & kj2 & sj2 & E2).
    eexists _, _, _, _. intros h. cbn [fold_left].
    rewrite E2, E1. apply masked_update_compose.
Qed.

Lemma joystick_loop_masked (usb : usb_host) (devs : list (Z * list Z)) :
  forall j, exists km sm kj sj t,
    forall h, joystick_loop usb devs j h = (masked_update km sm kj sj h, t).
Proof.
  induction devs as [|[addr buf] devs IH]; intros j; simpl.
  - exists (-1), 0, (-1), 0, []. intros h. rewrite masked_update_id. reflexivity.
  - destruct (skips usb addr HID_GENERIC); [apply IH|].
    destruct (j - 1 <? 0).
    { exists (-1), 0, (-1), 0, []. intros h. rewrite masked_update_id. reflexivity. }
    destruct (ready usb addr); [|apply IH].
    destruct (IH (j - 1)) as (km2 & sm2 & kj2 & sj2 & t & E2).
    assert (E1 : exists km sm kj sj,
              forall h, joystick_report usb (j - 1) addr buf h =
                        masked_update km sm kj sj h).
    { unfold joystick_report.
      destruct (tuh_hid_get_report_info usb addr) as [info|];
        [apply joystick_items_masked|].
      exists (-1), 0, (-1), 0. intros h. symmetry. apply masked_update_id. }
    destruct E1 as (km1 & sm1 & kj1 & sj1 & E1).
    eexists _, _, _, _, _. intros h. rewrite E2, E1, masked_update_compose.
    reflexivity.
Qed.

(** X27. Polling the joysticks twice on the same host snapshot gives what polling
    them once gives, with any number of devices and items. *)
Theorem handle_joystick_idempotent (usb : usb_host) (h : HidInput) :
  handle_joystick usb (fst (handle_joystick usb h)) = handle_joystick usb h.
Proof.
  unfold handle_joystick.
  destruct (joystick_loop_masked usb (device usb) 2) as (km & sm & kj & sj & t & E).
  rewrite !E. cbn [fst]. rewrite masked_update_stable. reflexivity.
Qed.

End JoystickAgain.

Section OnSamples3.

#[local] Existing Instance Sample.headers.
#[local] Existing Instance Sample.memory.

Import Sample Sample2.

Lemma key_order_does_not_matter_witness :
  keyboard_report kb_chord fresh = keyboard_report kb_chord_shuffled fresh.
Proof.
  apply key_order_does_not_matter; [simpl; lia | simpl; lia | reflexivity |].
  intros c. simpl. tauto.
Defined.

Lemma keyboard_poll_undoes_reset_witness :
  handle_keyboard (open_host [(4, kb_a)] no_info)
    (reset (fst (step (op_keyboard (open_host [(4, kb_a)] no_info)) fresh)))
  = handle_keyboard (open_host [(4, kb_a)] no_info)
      (fst (step (op_keyboard (open_host [(4, kb_a)] no_info)) fresh)).
Proof.
  apply keyboard_poll_undoes_reset.
  - apply reachable_step, reachable_ctor.
  - vm_compute. discriminate.
Defined.

Lemma no_key_down_after_construction_witness :
  st_keydown (HidInput_ctor (set_key_states [1; 1; 1] raw)) 1 = Some 0.
Proof. apply no_key_down_after_construction. lia. Defined.

Lemma mouse_redecode_is_stable_witness :
  fst (handle_mouse (open_host [(4, mouse_m5_3_left)] no_info) 0
         (fst (handle_mouse (open_host [(4, mouse_m5_3_left)] no_info) 0 moving)))
  = fst (handle_mouse (open_host [(4, mouse_m5_3_left)] no_info) 0 moving).
Proof.
  exact (proj1
    (mouse_redecode_is_stable (open_host [(4, mouse_m5_3_left)] no_info) 0 moving
       (4, mouse_m5_3_left) eq_refl)).
Defined.

End OnSamples3.
